(** * skmultilearn.cluster.networkx : NetworkXLabelGraphClusterer

    A shallow embedding of [NetworkXLabelGraphClusterer.fit_predict]
    (src/skmultilearn/cluster/networkx.py) and the properties of it that the
    specification states.

    Python values are modelled as follows.
    - A [dict] is an association list in insertion order with unique keys
      ([pydict]); iteration ([items], [values]) follows that order.
    - An exception is a value of [exn]; a computation of the method runs in
      the monad [Py], which threads the attributes of [self] and stops at the
      first exception (the attributes assigned so far are kept).
    - [networkx.Graph] is its adjacency structure [_adj]: a map from node to
      the map of its neighbours, each neighbour carrying the edge's [weight]
      attribute.
    - The two community detectors ([community.best_partition] and
      [networkx.asyn_lpa_communities]) are external: they are fields of a
      record [detectors], and every theorem holds for all of them.
      [best_partition] returns a dict or raises; the name
      [nx.asyn_lpa_communities] resolves to a detector or does not
      resolve. *)

From Stdlib Require Import QArith.
From stdpp Require Import gmap strings list fin_maps sorting.

#[local] Set Warnings "-clear-no-such-hyp".

Local Open Scope string_scope.
Local Open Scope nat_scope.

(** ** Python exceptions and the method monad *)

(** The builtin exceptions this method can raise. [KeyError k] carries the
    key that was looked up. *)
Inductive exn : Type :=
  | KeyError (k : nat)
  | TypeError
  | AttributeError
  | ValueError.

Definition result (A : Type) : Type := exn + A.

Module PyMonad.
Section monad.
Context {S : Type}.

(** State [S], result or exception. *)
Definition Py (A : Type) : Type := S → result A * S.

Definition ret {A} (a : A) : Py A := λ s, (inr a, s).

Definition raise {A} (e : exn) : Py A := λ s, (inl e, s).

Definition bind {A B} (m : Py A) (k : A → Py B) : Py B :=
  λ s, match m s with
       | (inr a, s') => k a s'
       | (inl e, s') => (inl e, s')
       end.

Definition get : Py S := λ s, (inr s, s).

Definition modify (f : S → S) : Py unit := λ s, (inr tt, f s).

Definition lift {A} (r : result A) : Py A := λ s, (r, s).

(** [for x in xs: body x] *)
Fixpoint for_each {A} (xs : list A) (body : A → Py unit) : Py unit :=
  match xs with
  | [] => ret tt
  | x :: xs' => bind (body x) (λ _, for_each xs' body)
  end.

(** [[f x for x in xs]] *)
Fixpoint comprehension {A B} (xs : list A) (f : A → Py B) : Py (list B) :=
  match xs with
  | [] => ret []
  | x :: xs' => bind (f x) (λ b, bind (comprehension xs' f) (λ bs, ret (b :: bs)))
  end.
End monad.

Arguments Py : clear implicits.
End PyMonad.
Import PyMonad.

Notation "'let!' x ':=' m 'in' k" := (bind m (λ x, k))
  (at level 10, x name, m at level 100, k at level 200, only parsing).
Notation "'run!' m 'in' k" := (bind m (λ _, k))
  (at level 10, m at level 100, k at level 200, only parsing).

(** ** Python dicts *)

Module PyDict.
Section dict.
Context {K : Type} `{EqDecision K} {V : Type}.

Definition pydict : Type := list (K * V).

(** [d.get(k)], [None] when the key is absent. *)
Fixpoint dict_get (d : pydict) (k : K) : option V :=
  match d with
  | [] => None
  | (k', v) :: d' => if decide (k = k') then Some v else dict_get d' k
  end.

(** [d.values()], [d.items()], [len(d)], in insertion order. *)
Definition dict_values (d : pydict) : list V := d.*2.
Definition dict_keys (d : pydict) : list K := d.*1.
Definition dict_items (d : pydict) : list (K * V) := d.
Definition dict_len (d : pydict) : nat := length d.

(** A dict holds each key once. *)
Definition dict_wf (d : pydict) : Prop := NoDup (dict_keys d).
End dict.

Arguments pydict : clear implicits.
End PyDict.
Import PyDict.

(** [range(n)] *)
Definition range (n : nat) : list nat := seq 0 n.

(** [max(xs)] on non-negative integers; [ValueError] on an empty sequence. *)
Definition py_max (xs : list nat) : result nat :=
  match xs with
  | [] => inl ValueError
  | x :: xs' => inr (foldr Nat.max x xs')
  end.

(** ** networkx.Graph *)

(** The value of an edge's ['weight'] attribute: Python's [None] or a
    number. The method only stores and passes weights on, so the numbers are
    kept as rationals. *)
Definition weight : Type := option Q.

Module nx.
(** An undirected graph without parallel edges: [_adj[u][v]] is the
    attribute of the edge between [u] and [v], stored under both
    endpoints; the nodes are the keys of [_adj]. *)
Record Graph : Type := mkGraph { _adj : gmap nat (gmap nat weight) }.

(** [nx.Graph()] *)
Definition Graph_new : Graph := mkGraph ∅.

(** [G.add_node(n)]: a node already present is left as it is. *)
Definition add_node (n : nat) (G : Graph) : Graph :=
  match _adj G !! n with
  | Some _ => G
  | None => mkGraph (<[n := ∅]> (_adj G))
  end.

(** [G.add_edge(u, v, weight=w)]: both endpoints are added when missing,
    then the attribute is written under [u] and under [v], replacing the
    weight of an edge that is already there. *)
Definition add_edge (u v : nat) (w : weight) (G : Graph) : Graph :=
  let G1 := add_node v (add_node u G) in
  let adj1 := alter (λ nbrs, <[v := w]> nbrs) u (_adj G1) in
  mkGraph (alter (λ nbrs, <[u := w]> nbrs) v adj1).

(** [G.nodes], [G.number_of_nodes()] *)
Definition nodes (G : Graph) : gset nat := dom (_adj G).
Definition number_of_nodes (G : Graph) : nat := size (_adj G).

(** [G.get_edge_data(u, v)]: [None] when there is no such edge. *)
Definition get_edge_data (G : Graph) (u v : nat) : option weight :=
  nbrs ← _adj G !! u; nbrs !! v.

(** [G.degree(n)]: the number of neighbours, a self-loop counting twice. *)
Definition degree_of (n : nat) (nbrs : gmap nat weight) : nat :=
  size nbrs + (if decide (is_Some (nbrs !! n)) then 1 else 0).

(** [G.size()] is half the sum of the degrees, and
    [G.number_of_edges()] is [int(G.size())]. *)
Definition degree_sum (G : Graph) : nat :=
  map_fold (λ n nbrs acc, degree_of n nbrs + acc) 0 (_adj G).
Definition number_of_edges (G : Graph) : nat := degree_sum G / 2.
End nx.

(** ** The collaborators of the clusterer *)

(** [y]: a sparse label matrix of shape [(n_samples, n_labels)]; [rows]
    lists, for each sample, the label indices that are set. *)
Record sparse_matrix : Type := mkSparse {
  shape : nat * nat;
  rows : list (list nat)
}.

(** The edge map of a graph builder: a dict from a 2-tuple of label indices
    to a weight. *)
Abbreviation edge_map_t := (pydict (nat * nat) weight).

(** What the method uses of [self.graph_builder]. *)
Record GraphBuilder : Type := mkGraphBuilder {
  transform : sparse_matrix → edge_map_t;
  is_weighted : bool
}.

(** What a community detector hands back: [community.best_partition]
    returns a dict from node to community id (a non-negative integer);
    [networkx.asyn_lpa_communities] returns an iterator over the
    communities, each a set of nodes (a generator, in current networkx). *)
Inductive partition_object : Type :=
  | PyDictObject (d : pydict nat nat)
  | PyGenerator (communities : list (gset nat)).

(** The two external detectors, as line 160 and line 162 reach them.
    - [community.best_partition(G)] returns the partition dict or raises (a
      [TypeError] on an edge whose weight is [None], a [ValueError] on a
      negative weight).
    - [nx.asyn_lpa_communities] is looked up in the module [networkx].
      networkx keeps this function in [networkx.algorithms.community] and
      does not export it at top level, so with networkx as released the
      lookup fails: [None]. [Some f] stands for an environment in which the
      name resolves to the detector, [f G weight] being the communities its
      iterator would yield. *)
Record detectors : Type := mkDetectors {
  best_partition : nx.Graph → result (pydict nat nat);
  asyn_lpa_communities : option (nx.Graph → string → list (gset nat))
}.

(** [o[i]]: a dict raises [KeyError] on an absent key, an iterator is not
    subscriptable. *)
Definition getitem (o : partition_object) (i : nat) : result nat :=
  match o with
  | PyDictObject d =>
      match dict_get d i with
      | Some c => inr c
      | None => inl (KeyError i)
      end
  | PyGenerator _ => inl TypeError
  end.

(** [o.values()]: an iterator has no such attribute. *)
Definition values (o : partition_object) : result (list nat) :=
  match o with
  | PyDictObject d => inr (dict_values d)
  | PyGenerator _ => inl AttributeError
  end.

(** [numpy.array] of a list of lists is read back as that nested sequence. *)
Definition np_array (communities : list (list nat)) : list (list nat) := communities.

(** Modelled from the spec: [_membership_to_list_of_communities] of
    skmultilearn/cluster/helpers.py, which is not among the sources. The
    specification (Partition Converter): the output is a sequence of length
    [size]; entry [c] is the list, ascending in the label index, of all label
    indices [i] whose community id is [c]. [membership_vector] holds the
    community id of label [i] at position [i]. *)
Definition _membership_to_list_of_communities
    (membership_vector : list nat) (size : nat) : list (list nat) :=
  (λ c, filter (λ i, membership_vector !! i = Some c) (range (length membership_vector)))
    <$> range size.

(** ** NetworkXLabelGraphClusterer *)

(** The attributes of [self]. [weights_] and [graph_] do not exist before
    the first call of [fit_predict] ([None] here); [weights_] is the dict
    [dict(weight=...)], whose one value is a list of weights or Python's
    [None]. *)
Record NetworkXLabelGraphClusterer : Type := mkClusterer {
  graph_builder : GraphBuilder;
  method : string;
  weights_ : option (pydict string (option (list weight)));
  graph_ : option nx.Graph
}.

(** [__init__(self, graph_builder, method)] *)
Definition __init__ (graph_builder : GraphBuilder) (method : string)
    : NetworkXLabelGraphClusterer :=
  mkClusterer graph_builder method None None.

Definition set_weights_ (v : pydict string (option (list weight)))
    : Py NetworkXLabelGraphClusterer unit :=
  modify (λ self, mkClusterer (graph_builder self) (method self) (Some v) (graph_ self)).

Definition set_graph_ (G : nx.Graph) : Py NetworkXLabelGraphClusterer unit :=
  modify (λ self, mkClusterer (graph_builder self) (method self) (weights_ self) (Some G)).

(** Reading [self.graph_]: an attribute that was never assigned raises
    [AttributeError]. *)
Definition get_graph_ : Py NetworkXLabelGraphClusterer nx.Graph :=
  let! self := get in
  match graph_ self with
  | Some G => ret G
  | None => raise AttributeError
  end.

(** [self.graph_.f(...)] for a method [f] that mutates the graph in place. *)
Definition call_graph_ (f : nx.Graph → nx.Graph) : Py NetworkXLabelGraphClusterer unit :=
  let! G := get_graph_ in set_graph_ (f G).

Section fit_predict.
Variable lib : detectors.

(** Lines 159-162: the branch on [self.method]. An exception raised
    inside [best_partition] leaves the method unchanged. In the other branch
    the attribute [asyn_lpa_communities] of the module is looked up before
    the arguments are evaluated: [AttributeError] when the module has no
    such attribute. *)
Definition detect_communities : Py NetworkXLabelGraphClusterer partition_object :=
  let! self := get in
  if decide (method self = "louvain") then
    let! G := get_graph_ in
    let! d := lift (best_partition lib G) in
    ret (PyDictObject d)
  else
    match asyn_lpa_communities lib with
    | None => raise AttributeError
    | Some detector =>
        let! G := get_graph_ in
        ret (PyGenerator (detector G "weight"))
    end.

(** Lines 164-171: the membership vector is read off [partition_dict]
    first, then the number of communities, then the helper is called. *)
Definition to_membership_list {S} (partition_dict : partition_object) (num_labels : nat)
    : Py S (list (list nat)) :=
  let! membership := comprehension (range num_labels) (λ i, lift (getitem partition_dict i)) in
  let! vals := lift (values partition_dict) in
  let! m := lift (py_max vals) in
  ret (np_array (_membership_to_list_of_communities membership (1 + m))).

(** [fit_predict(self, X, y)]; [X] may be any object, [None] included. *)
Definition fit_predict {T} (X : T) (y : sparse_matrix)
    : Py NetworkXLabelGraphClusterer (list (list nat)) :=
  let! self := get in
  let edge_map := transform (graph_builder self) y in
  run! (if is_weighted (graph_builder self)
        then set_weights_ [("weight", Some (dict_values edge_map))]
        else set_weights_ [("weight", None)]) in
  run! set_graph_ nx.Graph_new in
  run! for_each (range (shape y).2) (λ n, call_graph_ (nx.add_node n)) in
  run! for_each (dict_items edge_map)
         (λ '(e, w), call_graph_ (nx.add_edge e.1 e.2 w)) in
  let! partition_dict := detect_communities in
  to_membership_list partition_dict (shape y).2.
End fit_predict.

(** ** Vocabulary of the specification *)

(** The graph that lines 152-157 assemble, as a function of the number of
    labels and of the edge map. *)
Definition assemble_graph (num_labels : nat) (edge_map : edge_map_t) : nx.Graph :=
  foldl (λ G '(e, w), nx.add_edge e.1 e.2 w G)
        (foldl (λ G n, nx.add_node n G) nx.Graph_new (range num_labels))
        (dict_items edge_map).

(** The value [self.weights_] receives at lines 147-150. *)
Definition assemble_weights (weighted : bool) (edge_map : edge_map_t)
    : pydict string (option (list weight)) :=
  if weighted then [("weight", Some (dict_values edge_map))] else [("weight", None)].

(** The attributes of [self] once the graph is assembled. *)
Definition fitted (self : NetworkXLabelGraphClusterer) (y : sparse_matrix)
    : NetworkXLabelGraphClusterer :=
  let edge_map := transform (graph_builder self) y in
  mkClusterer (graph_builder self) (method self)
    (Some (assemble_weights (is_weighted (graph_builder self)) edge_map))
    (Some (assemble_graph (shape y).2 edge_map)).

(** A valid edge map: a dict whose keys are 2-tuples of distinct label
    indices in [[0, L)], each unordered pair being named by one key only. *)
Definition keys_distinct (em : edge_map_t) : Prop :=
  ∀ a b, (a, b) ∈ dict_keys em → a ≠ b.
Definition keys_in_range (L : nat) (em : edge_map_t) : Prop :=
  ∀ a b, (a, b) ∈ dict_keys em → a < L ∧ b < L.
Definition keys_unordered (em : edge_map_t) : Prop :=
  ∀ a b, (a, b) ∈ dict_keys em → a ≠ b → (b, a) ∉ dict_keys em.
Definition valid_edge_map (L : nat) (em : edge_map_t) : Prop :=
  dict_wf em ∧ keys_distinct em ∧ keys_in_range L em ∧ keys_unordered em.

(** A partition assignment covers [[0, L)]. *)
Definition covers (d : pydict nat nat) (L : nat) : Prop :=
  ∀ i, i < L → is_Some (dict_get d i).

(** Strictly ascending. *)
Definition ascending (l : list nat) : Prop := StronglySorted lt l.

(** Label [i] is listed in the community at position [c]. *)
Definition in_community (out : list (list nat)) (c i : nat) : Prop :=
  ∃ entry, out !! c = Some entry ∧ i ∈ entry.

(** Flattening a membership list into an assignment: each label is mapped
    to the position of the community that lists it. *)
Definition rederive_assignment (out : list (list nat)) : pydict nat nat :=
  concat (imap (λ c entry, (λ i, (i, c)) <$> entry) out).

(** Two assignments group the labels below [L] the same way. *)
Definition same_groupings (L : nat) (d d' : pydict nat nat) : Prop :=
  ∀ i j, i < L → j < L →
    (dict_get d i = dict_get d j ↔ dict_get d' i = dict_get d' j).

(** The weights of the edges of a graph are all one number. *)
Definition uniform_neutral_weight (G : nx.Graph) : Prop :=
  ∃ q : Q, ∀ u v w, nx.get_edge_data G u v = Some w → w = Some q.

(** The branch on the method rejects [m] as unsupported: it raises for [m]
    an exception that it does not raise for the supported method
    ["label_propagation"]. *)
Definition rejects_method (lib : detectors) (gb : GraphBuilder) (y : sparse_matrix)
    (m : string) : Prop :=
  ∃ e, (detect_communities lib (fitted (__init__ gb m) y)).1 = inl e
       ∧ (detect_communities lib (fitted (__init__ gb "label_propagation") y)).1 ≠ inl e.

(** ** Sample inputs *)

Module Sample.
(** Four labels, edge map [{(0,1): 2.0, (1,2): 1.0}]. *)
Definition y4 : sparse_matrix := mkSparse (3, 4) [[0; 1]; [0; 1; 2]; [3]].
Definition edges4 : edge_map_t := [((0, 1), Some (2 # 1)%Q); ((1, 2), Some (1 # 1)%Q)].
Definition weighted_builder : GraphBuilder := mkGraphBuilder (λ _, edges4) true.

(** An unweighted builder that hands the same counts on, and one that
    marks every edge with [None]. *)
Definition unweighted_builder : GraphBuilder := mkGraphBuilder (λ _, edges4) false.
Definition none_builder : GraphBuilder :=
  mkGraphBuilder (λ _, [((0, 1), None); ((1, 2), None)]) false.

(** A builder whose dict names the edge 0-1 by both of its 2-tuples. *)
Definition both_ways_builder : GraphBuilder :=
  mkGraphBuilder (λ _, [((0, 1), Some (1 # 1)%Q); ((1, 0), Some (1 # 1)%Q)]) true.

(** Detectors answering with the partition [{0:0, 1:0, 2:0, 3:1}] and the
    groups [[{0,1,2}, {3}]]. *)
Definition oracle : detectors :=
  mkDetectors (λ _, inr [(0, 0); (1, 0); (2, 0); (3, 1)])
              (Some (λ _ _, [ {[0; 1; 2]}; {[3]} ])).

(** The same partition, the dict filled in another order. *)
Definition oracle_reordered : detectors :=
  mkDetectors (λ _, inr [(3, 1); (1, 0); (0, 0); (2, 0)])
              (Some (λ _ _, [ {[3]}; {[0; 1; 2]} ])).

(** A partition that leaves label 2 out. *)
Definition oracle_partial : detectors :=
  mkDetectors (λ _, inr [(0, 0); (1, 0); (3, 1)]) (Some (λ _ _, [])).

(** No label at all, and a single label without edges: every node is a
    community of its own. *)
Definition y0 : sparse_matrix := mkSparse (3, 0) [[]; []; []].
Definition y1 : sparse_matrix := mkSparse (3, 1) [[0]; []; [0]].
Definition no_edges_builder : GraphBuilder := mkGraphBuilder (λ _, []) true.
Definition singletons : detectors :=
  mkDetectors (λ G, inr (imap (λ c n, (n, c)) (elements (nx.nodes G))))
              (Some (λ G _, (λ n, {[n]}) <$> elements (nx.nodes G))).

(** networkx as released: the module has no attribute
    [asyn_lpa_communities]. *)
Definition networkx_released : detectors :=
  mkDetectors (λ _, inr [(0, 0); (1, 0); (2, 0); (3, 1)]) None.
End Sample.

(** ** Edge maps outside the valid ones *)

(** The unordered pair that a 2-tuple names: an undirected graph does not
    tell [(a, b)] from [(b, a)]. *)
Definition unordered_key (k : nat * nat) : nat * nat :=
  (Nat.min k.1 k.2, Nat.max k.1 k.2).

(** The unordered pairs named by the keys of an edge map. *)
Definition edge_map_pairs (em : edge_map_t) : gset (nat * nat) :=
  list_to_set (unordered_key <$> dict_keys em).

(** The label indices that occur in the keys of an edge map. *)
Definition edge_map_endpoints (em : edge_map_t) : gset nat :=
  list_to_set (dict_keys em).*1 ∪ list_to_set (dict_keys em).*2.

(** The graph reads the same from both endpoints of every edge. *)
Definition undirected (G : nx.Graph) : Prop :=
  ∀ u v, nx.get_edge_data G u v = nx.get_edge_data G v u.

Module Sample2.
(** Three label columns; the edge map names the edge 0-1 twice, has a
    self-edge on label 2 and an endpoint 7 that is no label index. *)
Definition y3 : sparse_matrix := mkSparse (2, 3) [[0; 1]; [2]].
Definition edges_loose : edge_map_t :=
  [((0, 1), Some (1 # 1)%Q); ((2, 2), Some (3 # 1)%Q);
   ((1, 0), Some (5 # 1)%Q); ((1, 7), None)].
Definition loose_builder : GraphBuilder := mkGraphBuilder (λ _, edges_loose) true.

(** A self-edge next to an ordinary edge, each unordered pair named once. *)
Definition edges_self : edge_map_t :=
  [((0, 0), Some (1 # 1)%Q); ((0, 1), Some (2 # 1)%Q)].
Definition self_builder : GraphBuilder := mkGraphBuilder (λ _, edges_self) true.

(** A partition that covers three labels and also holds a node 7. *)
Definition oracle3 : detectors :=
  mkDetectors (λ _, inr [(0, 0); (1, 0); (2, 1); (7, 2)]) None.

(** [best_partition] failing on the graph it is given, as it does on an
    edge whose weight is [None]. *)
Definition oracle_raising : detectors := mkDetectors (λ _, inl TypeError) None.
End Sample2.

(** * Properties *)

(** ** Running the method *)

Section run.
Context (lib : detectors).

Lemma foldl_pointwise {A B} (f g : A → B → A) (a : A) (l : list B) :
  (∀ a x, f a x = g a x) → foldl f a l = foldl g a l.
Proof.
  intros Hfg. revert a. induction l as [|x l IH]; intros a; simpl; [done|].
  by rewrite Hfg, IH.
Qed.

Lemma for_each_call_graph_ {A} (f : A → nx.Graph → nx.Graph) body (xs : list A) gb m W G :
  (∀ x, body x = call_graph_ (f x)) →
  for_each xs body (mkClusterer gb m W (Some G))
  = (inr tt, mkClusterer gb m W (Some (foldl (λ G x, f x G) G xs))).
Proof.
  intros Hbody. revert G. induction xs as [|x xs IH]; intros G; simpl; [done|].
  rewrite Hbody. unfold bind at 1. simpl. apply IH.
Qed.

(** The method first assembles the attributes, whatever happens later. *)
Lemma fit_predict_fitted {T} (X : T) y self :
  fit_predict lib X y self
  = (let! partition_dict := detect_communities lib in
     to_membership_list partition_dict (shape y).2) (fitted self y).
Proof.
  destruct self as [gb m W G0]. unfold fit_predict, fitted, assemble_graph,
    assemble_weights, dict_items. simpl.
  unfold bind at 1. simpl. unfold bind at 1.
  destruct (is_weighted gb); simpl.
  all: unfold bind at 1; simpl; unfold bind at 1.
  all: rewrite (for_each_call_graph_ nx.add_node) by done; unfold bind at 1.
  all: rewrite (for_each_call_graph_ (λ '(e, w), nx.add_edge e.1 e.2 w))
         by (by intros [[??]?]).
  all: do 2 f_equal; f_equal; apply foldl_pointwise; by intros ? [[??]?].
Qed.
End run.

(** ** Dicts, [max] and the membership helper *)

Section dicts.
Context {K : Type} `{EqDecision K} {V : Type}.
Implicit Types (d : pydict K V) (k : K) (v : V).

Lemma dict_get_Some_elem d k v : dict_get d k = Some v → (k, v) ∈ d.
Proof.
  induction d as [|[k' v'] d IH]; simpl; [done|].
  case_decide as Hk.
  - intros [= ->]. subst. left.
  - intros Hget. right. auto.
Qed.

Lemma dict_get_None d k : dict_get d k = None ↔ k ∉ dict_keys d.
Proof.
  unfold dict_keys. induction d as [|[k' v'] d IH]; simpl.
  - split; [intros _; apply not_elem_of_nil | done].
  - rewrite not_elem_of_cons. case_decide as Hk; [|tauto].
    split; [done | tauto].
Qed.

Lemma dict_elem_get d k v : dict_wf d → (k, v) ∈ d → dict_get d k = Some v.
Proof.
  unfold dict_wf, dict_keys. induction d as [|[k' v'] d IH]; simpl.
  - intros _ Hin. by apply elem_of_nil in Hin.
  - rewrite NoDup_cons. intros [Hfresh Hnd] Hin.
    apply elem_of_cons in Hin as [[= -> ->]|Hin].
    + by rewrite decide_True.
    + case_decide as Hk; [|auto]. subst k'. destruct Hfresh.
      apply list_elem_of_fmap. by exists (k, v).
Qed.

(** The lookups of a dict do not depend on the order of insertion. *)
Lemma dict_get_permutation d1 d2 k :
  dict_wf d1 → d1 ≡ₚ d2 → dict_get d1 k = dict_get d2 k.
Proof.
  intros Hwf1 Hperm.
  assert (dict_wf d2) as Hwf2.
  { unfold dict_wf, dict_keys in *. by rewrite <- Hperm. }
  destruct (dict_get d1 k) as [v|] eqn:H1.
  - symmetry. apply dict_elem_get; [done|]. rewrite <- Hperm.
    by apply dict_get_Some_elem.
  - destruct (dict_get d2 k) as [v|] eqn:H2; [|done].
    apply dict_get_Some_elem in H2. rewrite <- Hperm in H2.
    apply dict_elem_get in H2; [congruence | done].
Qed.

Lemma dict_get_value d k v : dict_get d k = Some v → v ∈ dict_values d.
Proof.
  intros Hget%dict_get_Some_elem. unfold dict_values.
  apply list_elem_of_fmap. by exists (k, v).
Qed.
End dicts.

Lemma py_max_inr xs m :
  py_max xs = inr m ↔ m ∈ xs ∧ ∀ x, x ∈ xs → x ≤ m.
Proof.
  destruct xs as [|x xs]; simpl.
  - split; [done | intros [Hin _]; by apply elem_of_nil in Hin].
  - assert (foldr Nat.max x xs ∈ x :: xs ∧ ∀ z, z ∈ x :: xs → z ≤ foldr Nat.max x xs)
      as [Hin Hle].
    { induction xs as [|x' xs [IHin IHle]]; simpl.
      - split; [left|]. intros z ->%list_elem_of_singleton. lia.
      - split.
        + destruct (Nat.max_spec x' (foldr Nat.max x xs)) as [[_ ->]|[_ ->]].
          * apply elem_of_cons in IHin as [->|?]; [left | by do 2 right].
          * right; left.
        + intros z Hz. apply elem_of_cons in Hz as [->|Hz].
          * specialize (IHle x (list_elem_of_here _ _)). lia.
          * apply elem_of_cons in Hz as [->|Hz]; [lia|].
            specialize (IHle z (list_elem_of_further _ _ _ Hz)). lia. }
    split.
    + intros [= <-]. done.
    + intros [Hm Hmle]. f_equal. apply Nat.le_antisymm; auto.
Qed.

Lemma py_max_inl xs e : py_max xs = inl e ↔ xs = [] ∧ e = ValueError.
Proof.
  destruct xs; simpl; split; try done.
  - by intros [= <-].
  - by intros [_ ->].
  - by intros [? _].
Qed.

(** [max] does not depend on the order of its argument. *)
Lemma py_max_permutation xs ys : xs ≡ₚ ys → py_max xs = py_max ys.
Proof.
  intros Hperm. destruct (py_max xs) as [e|m] eqn:Hxs; symmetry.
  - apply py_max_inl in Hxs as [-> ->].
    apply Permutation_nil in Hperm. by subst ys.
  - apply py_max_inr in Hxs as [Hin Hle]. apply py_max_inr.
    split; [by rewrite <- Hperm|]. intros x Hx. apply Hle. by rewrite Hperm.
Qed.

Lemma StronglySorted_lt_seq j n : StronglySorted lt (seq j n).
Proof.
  revert j. induction n as [|n IH]; intros j; simpl; constructor; [apply IH|].
  apply Forall_forall. intros x Hx%elem_of_seq. lia.
Qed.

Lemma StronglySorted_filter {A} (R : relation A) (P : A → Prop)
    `{∀ x, Decision (P x)} (l : list A) :
  StronglySorted R l → StronglySorted R (filter P l).
Proof.
  induction 1 as [|x l Hl IH Hx]; [constructor|].
  rewrite filter_cons. case_decide; [|done].
  constructor; [done|]. apply Forall_forall. intros z [_ Hz]%list_elem_of_filter.
  by eapply Forall_forall in Hx.
Qed.

Section helper.
Implicit Types (v : list nat) (out : list (list nat)).

Lemma membership_length v size :
  length (_membership_to_list_of_communities v size) = size.
Proof.
  unfold _membership_to_list_of_communities, range.
  by rewrite length_fmap, length_seq.
Qed.

Lemma membership_lookup v size c :
  c < size →
  _membership_to_list_of_communities v size !! c
  = Some (filter (λ i, v !! i = Some c) (range (length v))).
Proof.
  intros Hc. unfold _membership_to_list_of_communities, range at 2.
  rewrite list_lookup_fmap.
  assert (seq 0 size !! c = Some c) as -> by (apply lookup_seq; lia).
  done.
Qed.

Lemma membership_lookup_None v size c :
  size ≤ c → _membership_to_list_of_communities v size !! c = None.
Proof. intros Hc. apply lookup_ge_None. by rewrite membership_length. Qed.

(** Label [i] is listed at position [c] exactly when its community id is
    [c]. *)
Lemma membership_in_community v size c i :
  in_community (_membership_to_list_of_communities v size) c i
  ↔ c < size ∧ v !! i = Some c.
Proof.
  unfold in_community. split.
  - intros (entry & Hentry & Hi).
    destruct (decide (c < size)) as [Hc|Hc].
    + rewrite membership_lookup in Hentry by done. injection Hentry as <-.
      apply list_elem_of_filter in Hi as [Hi _]. done.
    + rewrite membership_lookup_None in Hentry by lia. done.
  - intros [Hc Hi]. eexists. split; [by apply membership_lookup|].
    apply list_elem_of_filter. split; [done|].
    apply elem_of_seq. apply lookup_lt_Some in Hi. lia.
Qed.

Lemma membership_ascending v size :
  Forall ascending (_membership_to_list_of_communities v size).
Proof.
  unfold _membership_to_list_of_communities. apply Forall_fmap, Forall_forall.
  intros c _. simpl. apply StronglySorted_filter, StronglySorted_lt_seq.
Qed.
End helper.

(** ** The conversion of a partition (lines 164-171) *)

Section conversion.
Context {S : Type}.
Implicit Types (s : S) (d : pydict nat nat).

Lemma comprehension_lift_ok {A B} (f : A → result B) (g : A → B) (xs : list A) s :
  (∀ x, x ∈ xs → f x = inr (g x)) →
  comprehension xs (λ x, lift (f x)) s = (inr (g <$> xs), s).
Proof.
  induction xs as [|x xs IH]; intros Hf; simpl; [done|].
  unfold bind at 1, lift at 1. rewrite (Hf x) by left.
  unfold bind at 1. rewrite IH; [done|]. intros z Hz. apply Hf. by right.
Qed.

Lemma comprehension_lift_ext {A B} (f f' : A → result B) (xs : list A) s :
  (∀ x, x ∈ xs → f x = f' x) →
  comprehension xs (λ x, lift (f x)) s = comprehension xs (λ x, lift (f' x)) s.
Proof.
  induction xs as [|x xs IH]; intros Hf; simpl; [done|].
  unfold bind at 1 3, lift at 1 3. rewrite <- (Hf x) by left.
  destruct (f x) as [e|b]; [done|].
  unfold bind. rewrite IH; [done|]. intros z Hz. apply Hf. by right.
Qed.

(** Reading the membership vector stops at the first label that the dict
    does not hold. *)
Lemma comprehension_getitem_missing d n a s :
  (∃ i, a ≤ i < a + n ∧ dict_get d i = None) →
  ∃ j, a ≤ j < a + n ∧ dict_get d j = None
       ∧ (∀ i, a ≤ i < j → is_Some (dict_get d i))
       ∧ comprehension (seq a n) (λ i, lift (getitem (PyDictObject d) i)) s
         = (inl (KeyError j), s).
Proof.
  revert a. induction n as [|n IH]; intros a (i & Hi & Hnone); [lia|].
  simpl. unfold bind at 1, lift at 1. simpl.
  destruct (dict_get d a) as [c|] eqn:Ha.
  - destruct (IH (Datatypes.S a)) as (j & Hj & Hjnone & Hbelow & Hrun).
    { exists i. split; [|done]. destruct (decide (i = a)) as [->|]; [congruence | lia]. }
    exists j. split; [lia|]. split; [done|]. split.
    + intros k Hk. destruct (decide (k = a)) as [->|]; [by rewrite Ha|].
      apply Hbelow. lia.
    + unfold bind. simpl in Hrun. by rewrite Hrun.
  - exists a. split; [lia|]. split; [done|]. split; [intros; lia | done].
Qed.

(** The membership vector of a dict that covers the labels. *)
Lemma to_membership_list_dict d L m s :
  covers d L → py_max (dict_values d) = inr m →
  ∃ v, length v = L ∧ (∀ i, i < L → v !! i = dict_get d i)
       ∧ to_membership_list (PyDictObject d) L s
         = (inr (_membership_to_list_of_communities v (1 + m)), s).
Proof.
  intros Hcov Hmax. exists ((λ i, default 0 (dict_get d i)) <$> range L).
  split; [by unfold range; rewrite length_fmap, length_seq|]. split.
  - intros i Hi. rewrite list_lookup_fmap. unfold range.
    assert (seq 0 L !! i = Some i) as -> by (apply lookup_seq; lia).
    simpl. by destruct (Hcov i Hi) as [c ->].
  - unfold to_membership_list. unfold bind at 1.
    rewrite (comprehension_lift_ok _ (λ i, default 0 (dict_get d i))).
    + unfold bind at 1, lift at 1. simpl. unfold bind at 1, lift at 1.
      by rewrite Hmax.
    + intros i Hi%elem_of_seq. simpl. destruct (Hcov i) as [c ->]; [lia | done].
Qed.

Lemma to_membership_list_missing d L i s :
  i < L → dict_get d i = None →
  ∃ j, j ≤ i ∧ dict_get d j = None
       ∧ to_membership_list (PyDictObject d) L s = (inl (KeyError j), s).
Proof.
  intros Hi Hnone.
  destruct (comprehension_getitem_missing d L 0 s) as (j & Hj & Hjnone & Hbelow & Hrun).
  { exists i. split; [lia | done]. }
  exists j. split; [|split; [done|]].
  - destruct (decide (j ≤ i)); [done|]. destruct (Hbelow i) as [c Hc]; [lia | congruence].
  - unfold to_membership_list, range. unfold bind at 1. by rewrite Hrun.
Qed.

Lemma to_membership_list_empty_dict s :
  to_membership_list (PyDictObject []) 0 s = (inl ValueError, s).
Proof. done. Qed.

(** A generator is neither subscriptable nor has it [values]. *)
Lemma to_membership_list_generator communities L s :
  to_membership_list (PyGenerator communities) L s
  = (inl (if decide (L = 0) then AttributeError else TypeError), s).
Proof.
  destruct L as [|L]; [done|]. unfold to_membership_list, range. simpl.
  by unfold bind at 1.
Qed.

(** The conversion looks the dict up by key and takes the maximum of its
    values: the order in which the dict was filled is not observed. *)
Lemma to_membership_list_permutation d1 d2 L s :
  dict_wf d1 → d1 ≡ₚ d2 →
  to_membership_list (PyDictObject d1) L s = to_membership_list (PyDictObject d2) L s.
Proof.
  intros Hwf Hperm. unfold to_membership_list.
  unfold bind at 1 4.
  rewrite (comprehension_lift_ext _ (getitem (PyDictObject d2))).
  2: { intros i _. simpl. by rewrite (dict_get_permutation d1 d2). }
  destruct (comprehension _ _ s) as [[e|v] s']; [done|].
  unfold bind at 1 3, lift at 1 3. simpl.
  unfold bind, lift.
  rewrite (py_max_permutation (dict_values d1) (dict_values d2)); [done|].
  unfold dict_values. by rewrite Hperm.
Qed.
End conversion.

(** ** The branch on the method (lines 159-162) *)

Section dispatch.
Context (lib : detectors).
Implicit Types (self : NetworkXLabelGraphClusterer) (G : nx.Graph).

Lemma detect_louvain self G :
  method self = "louvain" → graph_ self = Some G →
  detect_communities lib self
  = (match best_partition lib G with
     | inl e => inl e
     | inr d => inr (PyDictObject d)
     end, self).
Proof.
  intros Hm HG. unfold detect_communities. unfold bind at 1. simpl.
  rewrite decide_True by done. unfold get_graph_, bind, lift. simpl. rewrite HG.
  unfold ret. by destruct (best_partition lib G).
Qed.

Lemma detect_other self G :
  method self ≠ "louvain" → graph_ self = Some G →
  detect_communities lib self
  = (match asyn_lpa_communities lib with
     | None => inl AttributeError
     | Some detector => inr (PyGenerator (detector G "weight"))
     end, self).
Proof.
  intros Hm HG. unfold detect_communities. unfold bind at 1. simpl.
  rewrite decide_False by done. destruct (asyn_lpa_communities lib); [|done].
  unfold get_graph_, bind. simpl. by rewrite HG.
Qed.

(** The whole method on the modularity branch and on the other branch. *)
Lemma fit_predict_louvain {T} (X : T) y self :
  method self = "louvain" →
  fit_predict lib X y self
  = match best_partition lib
            (assemble_graph (shape y).2 (transform (graph_builder self) y)) with
    | inl e => (inl e, fitted self y)
    | inr d => to_membership_list (PyDictObject d) (shape y).2 (fitted self y)
    end.
Proof.
  intros Hm. rewrite fit_predict_fitted. unfold bind at 1.
  erewrite detect_louvain; [|done..]. by destruct (best_partition lib _).
Qed.

Lemma fit_predict_other {T} (X : T) y self :
  method self ≠ "louvain" →
  fit_predict lib X y self
  = (inl (match asyn_lpa_communities lib with
          | None => AttributeError
          | Some _ => if decide ((shape y).2 = 0) then AttributeError else TypeError
          end),
     fitted self y).
Proof.
  intros Hm. rewrite fit_predict_fitted. unfold bind at 1.
  erewrite detect_other; [|done..]. destruct (asyn_lpa_communities lib); [|done].
  apply to_membership_list_generator.
Qed.
End dispatch.

(** ** The assembled graph (lines 152-157) *)

Section graph.
Implicit Types (G : nx.Graph) (u v a b n : nat) (w : weight) (em : edge_map_t).

Lemma add_node_adj n G :
  nx._adj (nx.add_node n G)
  = match nx._adj G !! n with Some _ => nx._adj G | None => <[n := ∅]> (nx._adj G) end.
Proof. unfold nx.add_node. by destruct (nx._adj G !! n). Qed.

Lemma nodes_add_node n G : nx.nodes (nx.add_node n G) = {[n]} ∪ nx.nodes G.
Proof.
  unfold nx.nodes. rewrite add_node_adj.
  destruct (nx._adj G !! n) as [nbrs|] eqn:Hn.
  - apply (elem_of_dom_2 (D := gset nat)) in Hn. set_solver.
  - by rewrite dom_insert_L.
Qed.

Lemma nodes_add_edge a b w G :
  nx.nodes (nx.add_edge a b w G) = {[a; b]} ∪ nx.nodes G.
Proof.
  unfold nx.add_edge, nx.nodes at 1. simpl. rewrite !dom_alter_L.
  fold (nx.nodes (nx.add_node b (nx.add_node a G))).
  rewrite !nodes_add_node. set_solver.
Qed.

Lemma get_edge_data_add_node n G u v :
  nx.get_edge_data (nx.add_node n G) u v = nx.get_edge_data G u v.
Proof.
  unfold nx.get_edge_data. rewrite add_node_adj.
  destruct (nx._adj G !! n) as [nbrs|] eqn:Hn; [done|].
  destruct (decide (u = n)) as [->|Hne].
  - by rewrite lookup_insert_eq, Hn.
  - by rewrite lookup_insert_ne.
Qed.

(** Adding an edge writes its weight under both orders of the endpoints
    and leaves every other pair as it was. *)
Lemma get_edge_data_add_edge a b w G u v :
  nx.get_edge_data (nx.add_edge a b w G) u v
  = if decide ((u, v) = (a, b) ∨ (u, v) = (b, a)) then Some w
    else nx.get_edge_data G u v.
Proof.
  rewrite <- (get_edge_data_add_node a G u v).
  rewrite <- (get_edge_data_add_node b (nx.add_node a G) u v).
  assert (is_Some (nx._adj (nx.add_node b (nx.add_node a G)) !! a)) as [na Hna].
  { apply (elem_of_dom (D := gset nat)). fold (nx.nodes (nx.add_node b (nx.add_node a G))).
    rewrite !nodes_add_node. set_solver. }
  assert (is_Some (nx._adj (nx.add_node b (nx.add_node a G)) !! b)) as [nb Hnb].
  { apply (elem_of_dom (D := gset nat)). fold (nx.nodes (nx.add_node b (nx.add_node a G))).
    rewrite !nodes_add_node. set_solver. }
  unfold nx.add_edge, nx.get_edge_data. simpl.
  generalize dependent (nx._adj (nx.add_node b (nx.add_node a G))). intros adj Hna Hnb.
  rewrite !lookup_alter.
  repeat case_decide; simplify_eq; try naive_solver;
    rewrite ?Hna, ?Hnb; simpl; rewrite ?lookup_insert_eq; try done.
  all: try (rewrite lookup_insert_ne by naive_solver); try done.
  all: try (destruct (adj !! u); simpl; done).
  all: try (rewrite lookup_insert; case_decide; simplify_eq; naive_solver).
Qed.

(** *** Nodes *)

Lemma nodes_fold_add_node (ns : list nat) G :
  nx.nodes (foldl (λ G n, nx.add_node n G) G ns) = list_to_set ns ∪ nx.nodes G.
Proof.
  revert G. induction ns as [|n ns IH]; intros G; simpl.
  - set_solver.
  - rewrite IH, nodes_add_node. set_solver.
Qed.

Lemma nodes_fold_add_edge em G :
  (∀ a b, (a, b) ∈ dict_keys em → a ∈ nx.nodes G ∧ b ∈ nx.nodes G) →
  nx.nodes (foldl (λ G '(e, w), nx.add_edge e.1 e.2 w G) G em) = nx.nodes G.
Proof.
  unfold dict_keys. revert G. induction em as [|[[a b] w] em IH]; intros G Hin; simpl; [done|].
  assert (nx.nodes (nx.add_edge a b w G) = nx.nodes G) as Hsame.
  { rewrite nodes_add_edge. destruct (Hin a b) as [Ha Hb]; [left|]. set_solver. }
  rewrite IH; [done|]. intros a' b' Hk. rewrite Hsame. apply Hin. by right.
Qed.

Lemma nodes_assemble_graph L em :
  keys_in_range L em → nx.nodes (assemble_graph L em) = list_to_set (range L).
Proof.
  intros Hrange. unfold assemble_graph, dict_items.
  rewrite nodes_fold_add_edge.
  - rewrite nodes_fold_add_node. unfold nx.nodes, nx.Graph_new. simpl.
    rewrite dom_empty_L. set_solver.
  - intros a b [Ha Hb]%Hrange. rewrite nodes_fold_add_node.
    split; apply elem_of_union_l, elem_of_list_to_set, elem_of_seq; lia.
Qed.

(** *** Edge attributes *)

Lemma get_edge_data_fold_add_node (ns : list nat) G u v :
  nx.get_edge_data (foldl (λ G n, nx.add_node n G) G ns) u v = nx.get_edge_data G u v.
Proof.
  revert G. induction ns as [|n ns IH]; intros G; simpl; [done|].
  by rewrite IH, get_edge_data_add_node.
Qed.

(** A pair that no key names, in either order, is not touched. *)
Lemma get_edge_data_fold_untouched em G u v :
  (u, v) ∉ dict_keys em → (v, u) ∉ dict_keys em →
  nx.get_edge_data (foldl (λ G '(e, w), nx.add_edge e.1 e.2 w G) G em) u v
  = nx.get_edge_data G u v.
Proof.
  unfold dict_keys. revert G.
  induction em as [|[[a b] w] em IH]; intros G Huv Hvu; simpl; [done|].
  simpl in Huv, Hvu. apply not_elem_of_cons in Huv as [Huv1 Huv2].
  apply not_elem_of_cons in Hvu as [Hvu1 Hvu2].
  rewrite IH by done. rewrite get_edge_data_add_edge.
  rewrite decide_False; [done|]. intros [?|?]; simplify_eq.
Qed.

Lemma keys_unordered_tail a b w em :
  dict_wf (((a, b), w) :: em) → keys_unordered (((a, b), w) :: em) →
  dict_wf em ∧ keys_unordered em ∧ ((a, b) ∉ dict_keys em) ∧ ((b, a) ∉ dict_keys em).
Proof.
  unfold dict_wf, keys_unordered, dict_keys. simpl.
  rewrite NoDup_cons. intros [Hfresh Hnd] Hun. repeat split; try done.
  - intros a' b' Hk Hne Hrev. apply (Hun a' b'); [by right | done | by right].
  - destruct (decide (a = b)) as [->|Hne]; [done|].
    intros Hrev. apply (Hun a b); [left | done | by right].
Qed.

(** Every key of a dict that names each unordered pair once finds its
    weight on its edge, read from either endpoint. *)
Lemma get_edge_data_fold_key em G a b w :
  dict_wf em → keys_unordered em → ((a, b), w) ∈ em →
  let G' := foldl (λ G '(e, w), nx.add_edge e.1 e.2 w G) G em in
  nx.get_edge_data G' a b = Some w ∧ nx.get_edge_data G' b a = Some w.
Proof.
  simpl. revert G. induction em as [|[[a' b'] w'] em IH]; intros G Hwf Hun Hin.
  { by apply elem_of_nil in Hin. }
  destruct (keys_unordered_tail _ _ _ _ Hwf Hun) as (Hwf' & Hun' & Hfresh & Hrev).
  simpl.
  apply elem_of_cons in Hin as [[= -> -> ->]|Hin]; [|by apply IH].
  rewrite !get_edge_data_fold_untouched by done.
  rewrite !get_edge_data_add_edge. rewrite !decide_True; auto.
Qed.

(** *** Counting edges *)

Lemma degree_fold_comm (j1 j2 : nat) (z1 z2 : gmap nat weight) (y : nat) :
  nx.degree_of j1 z1 + (nx.degree_of j2 z2 + y)
  = nx.degree_of j2 z2 + (nx.degree_of j1 z1 + y).
Proof. lia. Qed.

Lemma degree_sum_insert_fresh (adj : gmap nat (gmap nat weight)) n nbrs :
  adj !! n = None →
  nx.degree_sum (nx.mkGraph (<[n := nbrs]> adj))
  = nx.degree_of n nbrs + nx.degree_sum (nx.mkGraph adj).
Proof.
  intros Hn. unfold nx.degree_sum. simpl.
  rewrite map_fold_insert_L; [done | | done]. intros. apply degree_fold_comm.
Qed.

(** Replacing the neighbours of one node changes the sum by the change of
    that node's degree. *)
Lemma degree_sum_alter (adj : gmap nat (gmap nat weight)) g n nbrs :
  adj !! n = Some nbrs →
  nx.degree_sum (nx.mkGraph (alter g n adj)) + nx.degree_of n nbrs
  = nx.degree_sum (nx.mkGraph adj) + nx.degree_of n (g nbrs).
Proof.
  intros Hn. unfold nx.degree_sum. simpl.
  rewrite (map_fold_delete_L _ _ n (g nbrs) (alter g n adj)).
  2: { intros. apply degree_fold_comm. }
  2: { by rewrite lookup_alter_eq, Hn. }
  rewrite (map_fold_delete_L _ _ n nbrs adj); [| intros; apply degree_fold_comm | done].
  rewrite delete_alter_eq. lia.
Qed.

Lemma degree_of_insert_other n v w (nbrs : gmap nat weight) :
  n ≠ v → nbrs !! v = None →
  nx.degree_of n (<[v := w]> nbrs) = Datatypes.S (nx.degree_of n nbrs).
Proof.
  intros Hne Hv. unfold nx.degree_of.
  rewrite map_size_insert_None by done. rewrite lookup_insert_ne by done. lia.
Qed.

Lemma degree_sum_add_node n G : nx.degree_sum (nx.add_node n G) = nx.degree_sum G.
Proof.
  unfold nx.add_node. destruct G as [adj]. simpl.
  destruct (adj !! n) eqn:Hn; [done|].
  rewrite degree_sum_insert_fresh by done. unfold nx.degree_of.
  rewrite map_size_empty, lookup_empty. by rewrite decide_False by (by intros [??]).
Qed.

Lemma add_node_present n G : n ∈ nx.nodes G → nx.add_node n G = G.
Proof.
  unfold nx.nodes. intros [nbrs Hn]%elem_of_dom. unfold nx.add_node. by rewrite Hn.
Qed.

(** A new edge between two distinct nodes of the graph adds one to the
    degree of each. *)
Lemma degree_sum_add_edge a b w G :
  a ≠ b → a ∈ nx.nodes G → b ∈ nx.nodes G →
  nx.get_edge_data G a b = None → nx.get_edge_data G b a = None →
  nx.degree_sum (nx.add_edge a b w G) = 2 + nx.degree_sum G.
Proof.
  intros Hne Ha Hb Hab Hba. unfold nx.add_edge.
  rewrite (add_node_present a G) by done. rewrite (add_node_present b G) by done.
  destruct G as [adj]. unfold nx.nodes, nx.get_edge_data in *. simpl in *.
  apply elem_of_dom in Ha as [na Hna]. apply elem_of_dom in Hb as [nb Hnb].
  rewrite Hna in Hab. rewrite Hnb in Hba. simpl in Hab, Hba.
  pose proof (degree_sum_alter adj (λ nbrs, <[b := w]> nbrs) a na Hna) as H1.
  pose proof (degree_sum_alter (alter (λ nbrs, <[b := w]> nbrs) a adj)
                (λ nbrs, <[a := w]> nbrs) b nb) as H2.
  rewrite lookup_alter_ne in H2 by done. specialize (H2 Hnb).
  rewrite degree_of_insert_other in H1 by done.
  rewrite degree_of_insert_other in H2 by done. lia.
Qed.

Lemma degree_sum_fold_add_node (ns : list nat) G :
  nx.degree_sum (foldl (λ G n, nx.add_node n G) G ns) = nx.degree_sum G.
Proof.
  revert G. induction ns as [|n ns IH]; intros G; simpl; [done|].
  by rewrite IH, degree_sum_add_node.
Qed.

Lemma degree_sum_fold_add_edge em G :
  dict_wf em → keys_distinct em → keys_unordered em →
  (∀ a b, (a, b) ∈ dict_keys em →
     a ∈ nx.nodes G ∧ b ∈ nx.nodes G
     ∧ nx.get_edge_data G a b = None ∧ nx.get_edge_data G b a = None) →
  nx.degree_sum (foldl (λ G '(e, w), nx.add_edge e.1 e.2 w G) G em)
  = 2 * dict_len em + nx.degree_sum G.
Proof.
  unfold dict_len. revert G.
  induction em as [|[[a b] w] em IH]; intros G Hwf Hdist Hun HG; simpl; [done|].
  destruct (keys_unordered_tail _ _ _ _ Hwf Hun) as (Hwf' & Hun' & Hfresh & Hrev).
  destruct (HG a b) as (Ha & Hb & Hab & Hba); [left|].
  assert (a ≠ b) as Hne by (apply Hdist; left).
  rewrite IH; try done.
  - rewrite degree_sum_add_edge by done. lia.
  - intros a' b' Hk. apply Hdist. by right.
  - intros a' b' Hk. destruct (HG a' b') as (Ha' & Hb' & Hab' & Hba'); [by right|].
    rewrite nodes_add_edge, !get_edge_data_add_edge.
    rewrite !decide_False; [set_solver|..].
    all: intros [?|?]; simplify_eq.
Qed.

Lemma number_of_nodes_assemble_graph L em :
  keys_in_range L em → nx.number_of_nodes (assemble_graph L em) = L.
Proof.
  intros Hrange. unfold nx.number_of_nodes.
  rewrite <- (size_dom (D := gset nat)). fold (nx.nodes (assemble_graph L em)).
  rewrite nodes_assemble_graph by done.
  rewrite size_list_to_set by apply NoDup_seq. apply length_seq.
Qed.

Lemma number_of_edges_assemble_graph L em :
  valid_edge_map L em → nx.number_of_edges (assemble_graph L em) = dict_len em.
Proof.
  intros (Hwf & Hdist & Hrange & Hun). unfold nx.number_of_edges.
  assert (nx.degree_sum (assemble_graph L em) = dict_len em * 2) as ->.
  { unfold assemble_graph, dict_items. rewrite degree_sum_fold_add_edge; try done.
    - rewrite degree_sum_fold_add_node. unfold nx.degree_sum, nx.Graph_new.
      cbn [nx._adj]. rewrite map_fold_empty. lia.
    - intros a b [Ha Hb]%Hrange.
      rewrite nodes_fold_add_node, !get_edge_data_fold_add_node.
      repeat split; try done.
      all: apply elem_of_union_l, elem_of_list_to_set, elem_of_seq; lia. }
  apply Nat.div_mul. lia.
Qed.
End graph.

(** ** The attributes after a call *)

Section attributes.
Context (lib : detectors).

Lemma comprehension_lift_state {S A B} (f : A → result B) (xs : list A) (s : S) :
  (comprehension xs (λ x, lift (f x)) s).2 = s.
Proof.
  induction xs as [|x xs IH]; simpl; [done|].
  unfold bind at 1, lift at 1. destruct (f x) as [e|b]; [done|].
  unfold bind. destruct (comprehension xs _ s) as [[e|bs] s']; simpl in *; done.
Qed.

Lemma to_membership_list_state {S} o L (s : S) : (to_membership_list o L s).2 = s.
Proof.
  unfold to_membership_list. unfold bind at 1.
  pose proof (comprehension_lift_state (getitem o) (range L) s) as Hs.
  destruct (comprehension _ _ s) as [[e|v] s']; simpl in Hs; subst s'; [done|].
  unfold bind at 1, lift at 1. destruct (values o) as [e|vals]; [done|].
  unfold bind, lift. by destruct (py_max vals).
Qed.

(** Exception or not, [graph_] and [weights_] are the assembled ones. *)
Lemma fit_predict_state {T} (X : T) y self :
  (fit_predict lib X y self).2 = fitted self y.
Proof.
  destruct (decide (method self = "louvain")) as [Hm|Hm].
  - rewrite fit_predict_louvain by done.
    destruct (best_partition lib _); [done | apply to_membership_list_state].
  - by rewrite fit_predict_other.
Qed.
End attributes.

(** ** Flattening a membership list *)

Section rederive.
Implicit Types (out : list (list nat)) (d : pydict nat nat).

Lemma elem_of_rederive_assignment out i c :
  (i, c) ∈ rederive_assignment out ↔ in_community out c i.
Proof.
  unfold rederive_assignment, in_community.
  rewrite list_elem_of_In, in_concat. split.
  - intros (l & Hl & Hin). apply list_elem_of_In, elem_of_lookup_imap in Hl.
    destruct Hl as (c' & entry & -> & Hentry).
    apply list_elem_of_In, list_elem_of_fmap in Hin as (i' & [= -> ->] & Hi').
    by exists entry.
  - intros (entry & Hentry & Hi). exists ((λ i, (i, c)) <$> entry). split.
    + apply list_elem_of_In. by apply (elem_of_lookup_imap_2 (λ c entry, (λ i, (i, c)) <$> entry)).
    + apply list_elem_of_In, list_elem_of_fmap. by exists i.
Qed.

(** When every label is listed in one community only, looking a label up
    in the flattened list gives the position of that community. *)
Lemma dict_get_rederive_assignment out i c :
  in_community out c i → (∀ c', in_community out c' i → c' = c) →
  dict_get (rederive_assignment out) i = Some c.
Proof.
  intros Hin Hone.
  destruct (dict_get (rederive_assignment out) i) as [c'|] eqn:Hget.
  - apply dict_get_Some_elem, elem_of_rederive_assignment, Hone in Hget. by subst.
  - apply dict_get_None in Hget. destruct Hget.
    apply list_elem_of_fmap. exists (i, c). split; [done|].
    by apply elem_of_rederive_assignment.
Qed.
End rederive.

(** ** The membership list of a covering partition *)

Section membership_list.
Context (lib : detectors).

(** What the modularity branch returns for a partition that covers the
    labels: the helper applied to the membership vector of the dict. *)
Lemma fit_predict_covering {T} (X : T) y self d m :
  method self = "louvain" →
  best_partition lib (assemble_graph (shape y).2 (transform (graph_builder self) y)) = inr d →
  covers d (shape y).2 →
  py_max (dict_values d) = inr m →
  ∃ v, length v = (shape y).2 ∧ (∀ i, i < (shape y).2 → v !! i = dict_get d i)
       ∧ (fit_predict lib X y self).1
         = inr (_membership_to_list_of_communities v (1 + m)).
Proof.
  intros Hm Hd Hcov Hmax. rewrite fit_predict_louvain by done. rewrite Hd.
  destruct (to_membership_list_dict d (shape y).2 m (fitted self y) Hcov Hmax)
    as (v & Hlen & Hv & Hrun).
  exists v. by rewrite Hrun.
Qed.

(** The community id of a covered label is below the number of
    communities. *)
Lemma covered_id_bound (d : pydict nat nat) m i c :
  py_max (dict_values d) = inr m → dict_get d i = Some c → c < 1 + m.
Proof.
  intros [_ Hle]%py_max_inr Hget%dict_get_value. specialize (Hle c Hget). lia.
Qed.
End membership_list.

(** ** Scenarios *)

(** Four labels, edges [{(0,1): 2.0, (1,2): 1.0}], the partition
    [{0:0, 1:0, 2:0, 3:1}]. *)
Example scenario_louvain :
  (fit_predict Sample.oracle (@None sparse_matrix) Sample.y4
     (__init__ Sample.weighted_builder "louvain")).1 = inr [[0; 1; 2]; [3]].
Proof. reflexivity. Qed.

(** The same partition in a dict that was filled in another order. *)
Example scenario_louvain_reordered :
  (fit_predict Sample.oracle_reordered (@None sparse_matrix) Sample.y4
     (__init__ Sample.weighted_builder "louvain")).1 = inr [[0; 1; 2]; [3]].
Proof. reflexivity. Qed.

(** A community id that no label has gives an empty entry. *)
Example scenario_empty_community :
  to_membership_list (PyDictObject [(0, 2); (1, 0)]) 2 tt = (inr [[1]; []; [0]], tt).
Proof. reflexivity. Qed.

(** A dict that names the edge 0-1 by both of its 2-tuples is outside the
    valid edge maps: the second key overwrites the edge of the first, and
    the graph has one edge for the two items. *)
Example both_ways_keys_make_one_edge :
  ∃ G, graph_ (fit_predict Sample.oracle (@None sparse_matrix) Sample.y4
                 (__init__ Sample.both_ways_builder "louvain")).2 = Some G
       ∧ nx.number_of_edges G = 1
       ∧ dict_len (transform Sample.both_ways_builder Sample.y4) = 2.
Proof. eexists. repeat split; reflexivity. Qed.

(** * The claims *)

(** C3. For a partition assignment that covers every label index in
    [[0, L)], the membership list returned by [fit_predict] has length
    [1 + max(assignment.values())], every label index below [L] is listed
    in exactly one community entry (and nothing else is listed), and every
    entry is strictly ascending. *)
Theorem C3_membership_list_shape (lib : detectors) {T} (X : T) y self d m :
  method self = "louvain" →
  best_partition lib (assemble_graph (shape y).2 (transform (graph_builder self) y)) = inr d →
  covers d (shape y).2 →
  py_max (dict_values d) = inr m →
  ∃ out, (fit_predict lib X y self).1 = inr out
         ∧ length out = 1 + m
         ∧ (∀ i, i < (shape y).2 →
              ∃ c, in_community out c i ∧ ∀ c', in_community out c' i → c' = c)
         ∧ (∀ c i, in_community out c i → i < (shape y).2)
         ∧ Forall ascending out.
Proof.
  intros Hm Hd Hcov Hmax.
  destruct (fit_predict_covering lib X y self d m Hm Hd Hcov Hmax) as (v & Hlen & Hv & Hrun).
  eexists. split; [exact Hrun|]. split; [apply membership_length|].
  split; [|split; [|apply membership_ascending]].
  - intros i Hi. destruct (Hcov i Hi) as [c Hc]. exists c. split.
    + apply membership_in_community. split; [by eapply covered_id_bound|].
      by rewrite Hv.
    + intros c' [_ Hc']%membership_in_community. rewrite Hv in Hc' by done. congruence.
  - intros c i [_ Hi%lookup_lt_Some]%membership_in_community. by rewrite <- Hlen.
Qed.

Lemma C3_membership_list_shape_witness :
  ∃ out, (fit_predict Sample.oracle (@None sparse_matrix) Sample.y4
            (__init__ Sample.weighted_builder "louvain")).1 = inr out
         ∧ length out = 2
         ∧ (∀ i, i < 4 → ∃ c, in_community out c i ∧ ∀ c', in_community out c' i → c' = c)
         ∧ (∀ c i, in_community out c i → i < 4)
         ∧ Forall ascending out.
Proof.
  apply (C3_membership_list_shape Sample.oracle (@None sparse_matrix) Sample.y4
           (__init__ Sample.weighted_builder "louvain")
           [(0, 0); (1, 0); (2, 0); (3, 1)] 1).
  - reflexivity.
  - reflexivity.
  - intros i Hi. do 4 (destruct i as [|i]; [simpl; eauto|]). simpl in Hi. lia.
  - reflexivity.
Defined.

(** C6. If the partition assignment that community detection produced
    lacks a label index below [num_labels], the conversion fails: reading
    the membership vector raises [KeyError] at the first such index. *)
Theorem C6_missing_assignment_fails (lib : detectors) {T} (X : T) y self d i :
  method self = "louvain" →
  best_partition lib (assemble_graph (shape y).2 (transform (graph_builder self) y)) = inr d →
  i < (shape y).2 →
  dict_get d i = None →
  ∃ j, j ≤ i ∧ dict_get d j = None
       ∧ (fit_predict lib X y self).1 = inl (KeyError j).
Proof.
  intros Hm Hd Hi Hnone. rewrite fit_predict_louvain by done. rewrite Hd.
  destruct (to_membership_list_missing d (shape y).2 i (fitted self y) Hi Hnone)
    as (j & Hj & Hjnone & Hrun).
  exists j. by rewrite Hrun.
Qed.

Lemma C6_missing_assignment_fails_witness :
  ∃ j, j ≤ 2 ∧ dict_get [(0, 0); (1, 0); (3, 1)] j = None
       ∧ (fit_predict Sample.oracle_partial (@None sparse_matrix) Sample.y4
            (__init__ Sample.weighted_builder "louvain")).1 = inl (KeyError j).
Proof.
  apply (C6_missing_assignment_fails Sample.oracle_partial (@None sparse_matrix) Sample.y4
           (__init__ Sample.weighted_builder "louvain") [(0, 0); (1, 0); (3, 1)] 2).
  - reflexivity.
  - reflexivity.
  - simpl. lia.
  - reflexivity.
Defined.

(** C8. Round trip: for a partition assignment that covers [[0, L)],
    flattening the returned membership list into an assignment (label to
    the position of its community) gives back the community id of every
    label, hence the same groupings of the labels. *)
Theorem C8_round_trip (lib : detectors) {T} (X : T) y self d m :
  method self = "louvain" →
  best_partition lib (assemble_graph (shape y).2 (transform (graph_builder self) y)) = inr d →
  covers d (shape y).2 →
  py_max (dict_values d) = inr m →
  ∃ out, (fit_predict lib X y self).1 = inr out
         ∧ (∀ i, i < (shape y).2 → dict_get (rederive_assignment out) i = dict_get d i)
         ∧ covers (rederive_assignment out) (shape y).2
         ∧ same_groupings (shape y).2 d (rederive_assignment out).
Proof.
  intros Hm Hd Hcov Hmax.
  destruct (fit_predict_covering lib X y self d m Hm Hd Hcov Hmax) as (v & Hlen & Hv & Hrun).
  eexists. split; [exact Hrun|].
  assert (∀ i, i < (shape y).2 →
            dict_get (rederive_assignment (_membership_to_list_of_communities v (1 + m))) i
            = dict_get d i) as Hsame.
  { intros i Hi. destruct (Hcov i Hi) as [c Hc]. rewrite Hc.
    apply dict_get_rederive_assignment.
    - apply membership_in_community. split; [by eapply covered_id_bound|].
      by rewrite Hv.
    - intros c' [_ Hc']%membership_in_community. rewrite Hv in Hc' by done. congruence. }
  split; [done|]. split.
  - intros i Hi. rewrite Hsame by done. by apply Hcov.
  - intros i j Hi Hj. by rewrite !Hsame.
Qed.

Lemma C8_round_trip_witness :
  ∃ out, (fit_predict Sample.oracle (@None sparse_matrix) Sample.y4
            (__init__ Sample.weighted_builder "louvain")).1 = inr out
         ∧ (∀ i, i < 4 → dict_get (rederive_assignment out) i
                         = dict_get [(0, 0); (1, 0); (2, 0); (3, 1)] i)
         ∧ covers (rederive_assignment out) 4
         ∧ same_groupings 4 [(0, 0); (1, 0); (2, 0); (3, 1)] (rederive_assignment out).
Proof.
  apply (C8_round_trip Sample.oracle (@None sparse_matrix) Sample.y4
           (__init__ Sample.weighted_builder "louvain")
           [(0, 0); (1, 0); (2, 0); (3, 1)] 1).
  - reflexivity.
  - reflexivity.
  - intros i Hi. do 4 (destruct i as [|i]; [simpl; eauto|]). simpl in Hi. lia.
  - reflexivity.
Defined.

(** C9. The conversion is deterministic and does not observe the order in
    which the assignment dict was filled: two dicts holding the same items
    give the same outcome (the same membership list or the same exception),
    and every community list of a membership list is strictly ascending. *)
Theorem C9_conversion_deterministic {S} (s : S) (d1 d2 : pydict nat nat) (L : nat) :
  dict_wf d1 → d1 ≡ₚ d2 →
  to_membership_list (PyDictObject d1) L s = to_membership_list (PyDictObject d2) L s
  ∧ ∀ out, (to_membership_list (PyDictObject d1) L s).1 = inr out → Forall ascending out.
Proof.
  intros Hwf Hperm. split; [by apply to_membership_list_permutation|].
  intros out. unfold to_membership_list. unfold bind at 1.
  destruct (comprehension _ _ s) as [[e|v] s']; [done|].
  unfold bind at 1, lift at 1. simpl. unfold bind, lift.
  destruct (py_max (dict_values d1)) as [e|m]; [done|]. simpl.
  intros [= <-]. apply membership_ascending.
Qed.

Lemma C9_conversion_deterministic_witness :
  to_membership_list (PyDictObject [(0, 0); (1, 0); (2, 0); (3, 1)]) 4 tt
  = to_membership_list (PyDictObject [(3, 1); (0, 0); (1, 0); (2, 0)]) 4 tt
  ∧ ∀ out, (to_membership_list (PyDictObject [(0, 0); (1, 0); (2, 0); (3, 1)]) 4 tt).1 = inr out
           → Forall ascending out.
Proof.
  apply (C9_conversion_deterministic tt [(0, 0); (1, 0); (2, 0); (3, 1)]
           [(3, 1); (0, 0); (1, 0); (2, 0)] 4).
  - unfold dict_wf. simpl. apply (bool_decide_unpack _). reflexivity.
  - symmetry. apply (Permutation_cons_append [(0, 0); (1, 0); (2, 0)] (3, 1)).
Defined.

(** C1, as the code has it. The method string is never validated: every
    string other than ["louvain"], ["label_propagation"] and unrecognised
    strings alike, takes the one [else] branch of lines 159-162. So the
    branch on the method, and the whole call, end for such a string exactly
    as they do for ["label_propagation"], and no method is rejected as
    unsupported. *)
Theorem C1_other_methods_take_label_propagation
    (lib : detectors) {T} (X : T) y (gb : GraphBuilder) (m : string) :
  m ≠ "louvain" →
  (detect_communities lib (fitted (__init__ gb m) y)).1
  = (detect_communities lib (fitted (__init__ gb "label_propagation") y)).1
  ∧ (fit_predict lib X y (__init__ gb m)).1
    = (fit_predict lib X y (__init__ gb "label_propagation")).1
  ∧ ¬ rejects_method lib gb y m.
Proof.
  intros Hm.
  assert ((detect_communities lib (fitted (__init__ gb m) y)).1
          = (detect_communities lib (fitted (__init__ gb "label_propagation") y)).1) as Hsame.
  { by rewrite !(detect_other lib _ (assemble_graph (shape y).2 (transform gb y))). }
  split; [done|]. split.
  - by rewrite !fit_predict_other.
  - intros (e & He & Hlp). by rewrite <- Hsame in Hlp.
Qed.

Lemma C1_other_methods_take_label_propagation_witness :
  (detect_communities Sample.networkx_released
     (fitted (__init__ Sample.weighted_builder "unknown") Sample.y4)).1
  = (detect_communities Sample.networkx_released
       (fitted (__init__ Sample.weighted_builder "label_propagation") Sample.y4)).1
  ∧ (fit_predict Sample.networkx_released (@None sparse_matrix) Sample.y4
       (__init__ Sample.weighted_builder "unknown")).1
    = (fit_predict Sample.networkx_released (@None sparse_matrix) Sample.y4
         (__init__ Sample.weighted_builder "label_propagation")).1
  ∧ ¬ rejects_method Sample.networkx_released Sample.weighted_builder Sample.y4 "unknown".
Proof.
  apply (C1_other_methods_take_label_propagation Sample.networkx_released
           (@None sparse_matrix) Sample.y4 Sample.weighted_builder "unknown").
  intros Heq. discriminate Heq.
Defined.

(** C1, as the specification states it, fails. With networkx as released,
    the method ["unknown"] ends in the [AttributeError] of the lookup at
    line 162, which is what the supported method ["label_propagation"] ends
    in as well: the string is not rejected as unsupported. Where the name
    resolves to the detector, ["unknown"] is handed the iterator of the
    label-propagation detector and nothing is raised. *)
Lemma C1_unknown_method_not_rejected :
  ¬ (∀ m : string, m ≠ "louvain" → m ≠ "label_propagation" →
       rejects_method Sample.networkx_released Sample.weighted_builder Sample.y4 m)
  ∧ (detect_communities Sample.networkx_released
       (fitted (__init__ Sample.weighted_builder "unknown") Sample.y4)).1
    = inl AttributeError
  ∧ (detect_communities Sample.networkx_released
       (fitted (__init__ Sample.weighted_builder "label_propagation") Sample.y4)).1
    = inl AttributeError
  ∧ (detect_communities Sample.oracle
       (fitted (__init__ Sample.weighted_builder "unknown") Sample.y4)).1
    = inr (PyGenerator [ {[0; 1; 2]}; {[3]} ]).
Proof.
  split; [|repeat split; reflexivity].
  intros Hclaim. destruct (Hclaim "unknown") as (e & He & Hlp); [done..|].
  apply Hlp. rewrite <- He. reflexivity.
Qed.

(** C2. The claim's scenario on the code: four labels, the method
    ["label_propagation"], the detector yielding the groups
    [[{0,1,2}, {3}]]. The generator is subscripted as if it were the
    normalized dict, and the call raises [TypeError] where the claim expects
    the membership list [[[0,1,2],[3]]]. With networkx as released the call
    does not get that far: the lookup at line 162 raises
    [AttributeError]. *)
Theorem C2_label_propagation_groups_not_normalized :
  (fit_predict Sample.oracle (@None sparse_matrix) Sample.y4
     (__init__ Sample.weighted_builder "label_propagation")).1 = inl TypeError
  ∧ (fit_predict Sample.oracle (@None sparse_matrix) Sample.y4
       (__init__ Sample.weighted_builder "label_propagation")).1 ≠ inr [[0; 1; 2]; [3]]
  ∧ (fit_predict Sample.oracle (@None sparse_matrix) Sample.y4
       (__init__ Sample.weighted_builder "louvain")).1 = inr [[0; 1; 2]; [3]]
  ∧ (fit_predict Sample.networkx_released (@None sparse_matrix) Sample.y4
       (__init__ Sample.weighted_builder "label_propagation")).1 = inl AttributeError.
Proof. repeat split; done. Qed.

(** C4. For a valid edge map over [L] labels, the graph that [fit_predict]
    leaves in [graph_] has the nodes [0 .. L-1], hence [L] nodes, and
    [len(edge_map)] edges. *)
Theorem C4_graph_size (lib : detectors) {T} (X : T) y self :
  valid_edge_map (shape y).2 (transform (graph_builder self) y) →
  ∃ G, graph_ (fit_predict lib X y self).2 = Some G
       ∧ nx.nodes G = list_to_set (range (shape y).2)
       ∧ nx.number_of_nodes G = (shape y).2
       ∧ nx.number_of_edges G = dict_len (transform (graph_builder self) y).
Proof.
  intros Hvalid. rewrite fit_predict_state. eexists. split; [reflexivity|].
  pose proof Hvalid as (_ & _ & Hrange & _).
  split; [by apply nodes_assemble_graph|].
  split; [by apply number_of_nodes_assemble_graph|].
  by apply number_of_edges_assemble_graph.
Qed.

Lemma C4_graph_size_witness :
  ∃ G, graph_ (fit_predict Sample.oracle (@None sparse_matrix) Sample.y4
                 (__init__ Sample.weighted_builder "louvain")).2 = Some G
       ∧ nx.nodes G = list_to_set (range 4)
       ∧ nx.number_of_nodes G = 4
       ∧ nx.number_of_edges G = 2.
Proof.
  apply (C4_graph_size Sample.oracle (@None sparse_matrix) Sample.y4
           (__init__ Sample.weighted_builder "louvain")).
  unfold valid_edge_map, dict_wf, keys_distinct, keys_in_range, keys_unordered, dict_keys.
  simpl. split; [|split; [|split]].
  - apply (bool_decide_unpack _). reflexivity.
  - intros a b Hk. apply (bool_decide_unpack _).
    apply elem_of_cons in Hk as [[= -> ->]|Hk]; [reflexivity|].
    apply elem_of_cons in Hk as [[= -> ->]|Hk]; [reflexivity|].
    by apply elem_of_nil in Hk.
  - intros a b Hk.
    apply elem_of_cons in Hk as [[= -> ->]|Hk]; [lia|].
    apply elem_of_cons in Hk as [[= -> ->]|Hk]; [lia|].
    by apply elem_of_nil in Hk.
  - intros a b Hk _. apply (bool_decide_unpack _).
    apply elem_of_cons in Hk as [[= -> ->]|Hk]; [reflexivity|].
    apply elem_of_cons in Hk as [[= -> ->]|Hk]; [reflexivity|].
    by apply elem_of_nil in Hk.
Defined.

(** The second half of C5 holds on the modularity branch: a single label
    without edges, which the detector puts into community 0, comes back as
    the one community [[0]]. *)
Lemma single_isolated_label (lib : detectors) {T} (X : T) y (gb : GraphBuilder) :
  (shape y).2 = 1 → transform gb y = [] →
  best_partition lib (nx.add_node 0 nx.Graph_new) = inr [(0, 0)] →
  (fit_predict lib X y (__init__ gb "louvain")).1 = inr [[0]].
Proof.
  intros HL Hem Hd. rewrite fit_predict_louvain by done. simpl.
  rewrite HL, Hem. unfold assemble_graph. simpl. by rewrite Hd.
Qed.

Example scenario_single_label :
  (fit_predict Sample.singletons (@None sparse_matrix) Sample.y1
     (__init__ Sample.no_edges_builder "louvain")).1 = inr [[0]].
Proof. by apply single_isolated_label. Qed.

(** C5. No label and no edge: [graph_] is the empty graph, and the call
    does not return the empty membership list. With the empty partition of
    the empty graph, [max] of no values raises [ValueError] on the
    modularity branch; on the other branch [AttributeError] is raised, by
    the lookup at line 162 or, where that name resolves, by the generator
    that has no [values]. *)
Theorem C5_no_labels_raises (lib : detectors) {T} (X : T) y (gb : GraphBuilder) (m : string) :
  (shape y).2 = 0 → transform gb y = [] →
  best_partition lib nx.Graph_new = inr [] →
  graph_ (fit_predict lib X y (__init__ gb m)).2 = Some nx.Graph_new
  ∧ (fit_predict lib X y (__init__ gb m)).1
    = inl (if decide (m = "louvain") then ValueError else AttributeError)
  ∧ (fit_predict lib X y (__init__ gb m)).1 ≠ inr [].
Proof.
  intros HL Hem Hd.
  assert (assemble_graph (shape y).2 (transform gb y) = nx.Graph_new) as HG.
  { by rewrite HL, Hem. }
  assert ((fit_predict lib X y (__init__ gb m)).1
          = inl (if decide (m = "louvain") then ValueError else AttributeError)) as Hres.
  { case_decide as Hm.
    - subst m. rewrite fit_predict_louvain by done. simpl. by rewrite HG, Hd, HL.
    - rewrite fit_predict_other by done. simpl. rewrite HL.
      by destruct (asyn_lpa_communities lib). }
  split; [|split; [done|]].
  - rewrite fit_predict_state. unfold fitted. simpl. by rewrite HG.
  - by rewrite Hres.
Qed.

Lemma C5_no_labels_raises_witness :
  graph_ (fit_predict Sample.singletons (@None sparse_matrix) Sample.y0
            (__init__ Sample.no_edges_builder "louvain")).2 = Some nx.Graph_new
  ∧ (fit_predict Sample.singletons (@None sparse_matrix) Sample.y0
       (__init__ Sample.no_edges_builder "louvain")).1 = inl ValueError
  ∧ (fit_predict Sample.singletons (@None sparse_matrix) Sample.y0
       (__init__ Sample.no_edges_builder "louvain")).1 ≠ inr [].
Proof.
  apply (C5_no_labels_raises Sample.singletons (@None sparse_matrix) Sample.y0
           Sample.no_edges_builder "louvain").
  - reflexivity.
  - reflexivity.
  - reflexivity.
Defined.

(** C7, as the code has it. Weighted builder or not, every key of the edge
    map finds its own value on its edge, read from either endpoint (for a
    dict that names each unordered pair once); the flag [is_weighted] only
    decides what [weights_] holds: the list of the values of the edge map,
    or [None]. *)
Theorem C7_edges_keep_edge_map_values (lib : detectors) {T} (X : T) y self :
  dict_wf (transform (graph_builder self) y) →
  keys_unordered (transform (graph_builder self) y) →
  ∃ G, graph_ (fit_predict lib X y self).2 = Some G
       ∧ (∀ a b w, ((a, b), w) ∈ transform (graph_builder self) y →
            nx.get_edge_data G a b = Some w ∧ nx.get_edge_data G b a = Some w)
       ∧ weights_ (fit_predict lib X y self).2
         = Some [("weight",
                  if is_weighted (graph_builder self)
                  then Some (dict_values (transform (graph_builder self) y))
                  else None)].
Proof.
  intros Hwf Hun. rewrite fit_predict_state. eexists. split; [reflexivity|]. split.
  - intros a b w Hin. by apply get_edge_data_fold_key.
  - unfold fitted, assemble_weights. simpl. by destruct (is_weighted _).
Qed.

Lemma C7_edges_keep_edge_map_values_witness :
  ∃ G, graph_ (fit_predict Sample.oracle (@None sparse_matrix) Sample.y4
                 (__init__ Sample.unweighted_builder "louvain")).2 = Some G
       ∧ (∀ a b w, ((a, b), w) ∈ Sample.edges4 →
            nx.get_edge_data G a b = Some w ∧ nx.get_edge_data G b a = Some w)
       ∧ weights_ (fit_predict Sample.oracle (@None sparse_matrix) Sample.y4
                     (__init__ Sample.unweighted_builder "louvain")).2
         = Some [("weight", None)].
Proof.
  apply (C7_edges_keep_edge_map_values Sample.oracle (@None sparse_matrix) Sample.y4
           (__init__ Sample.unweighted_builder "louvain")).
  - unfold dict_wf. simpl. apply (bool_decide_unpack _). reflexivity.
  - unfold keys_unordered, dict_keys. simpl. intros a b Hk _. apply (bool_decide_unpack _).
    apply elem_of_cons in Hk as [[= -> ->]|Hk]; [reflexivity|].
    apply elem_of_cons in Hk as [[= -> ->]|Hk]; [reflexivity|].
    by apply elem_of_nil in Hk.
Defined.

(** C7, as the specification states it, fails for an unweighted builder:
    the edges keep the counts of the edge map, which differ from edge to
    edge, and a builder that marks its edges with [None] gets that [None]
    on every edge of the graph handed to the detector. *)
Lemma C7_unweighted_edges_not_neutral :
  (∃ G, graph_ (fit_predict Sample.oracle (@None sparse_matrix) Sample.y4
                  (__init__ Sample.unweighted_builder "louvain")).2 = Some G
        ∧ nx.get_edge_data G 0 1 = Some (Some (2 # 1)%Q)
        ∧ nx.get_edge_data G 1 2 = Some (Some (1 # 1)%Q)
        ∧ ¬ uniform_neutral_weight G)
  ∧ (∃ G, graph_ (fit_predict Sample.oracle (@None sparse_matrix) Sample.y4
                    (__init__ Sample.none_builder "louvain")).2 = Some G
          ∧ nx.get_edge_data G 0 1 = Some None
          ∧ nx.get_edge_data G 1 2 = Some None
          ∧ ¬ uniform_neutral_weight G).
Proof.
  split.
  - eexists. split; [reflexivity|]. split; [reflexivity|]. split; [reflexivity|].
    intros [q Hq].
    pose proof (Hq 0 1 (Some (2 # 1)%Q) eq_refl) as H01.
    pose proof (Hq 1 2 (Some (1 # 1)%Q) eq_refl) as H12. congruence.
  - eexists. split; [reflexivity|]. split; [reflexivity|]. split; [reflexivity|].
    intros [q Hq]. pose proof (Hq 0 1 None eq_refl) as H01. done.
Qed.

(** C10. [fit_predict] never reads [X]: for the same [self] and [y], two
    calls with any two objects as [X] end with the same result (the same
    membership list or the same exception) and the same attributes,
    [graph_] and [weights_] included. *)
Theorem C10_X_is_not_read (lib : detectors) {T1 T2} (X1 : T1) (X2 : T2) y self :
  fit_predict lib X1 y self = fit_predict lib X2 y self.
Proof. reflexivity. Qed.

(** * Further properties of [fit_predict] *)

(** ** Edge maps with repeated pairs, self-edges and foreign endpoints *)

Section loose_edge_maps.
Implicit Types (G : nx.Graph) (u v a b n : nat) (w : weight) (em : edge_map_t).

Lemma get_edge_data_Graph_new u v : nx.get_edge_data nx.Graph_new u v = None.
Proof. unfold nx.get_edge_data, nx.Graph_new. simpl. by rewrite lookup_empty. Qed.

Lemma undirected_add_edge a b w G : undirected G → undirected (nx.add_edge a b w G).
Proof.
  intros Hsym u v. rewrite !get_edge_data_add_edge, (Hsym u v).
  destruct (decide ((u, v) = (a, b) ∨ (u, v) = (b, a))) as [Huv|Huv].
  - rewrite decide_True; [done|]. destruct Huv as [[= -> ->]|[= -> ->]]; auto.
  - rewrite decide_False; [done|]. intros [[= -> ->]|[= -> ->]]; auto.
Qed.

Lemma undirected_fold_add_edge em G :
  undirected G → undirected (foldl (λ G '(e, w), nx.add_edge e.1 e.2 w G) G em).
Proof.
  revert G. induction em as [|[[a b] w] em IH]; intros G Hsym; simpl; [done|].
  by apply IH, undirected_add_edge.
Qed.

Lemma undirected_assemble_graph L em : undirected (assemble_graph L em).
Proof.
  unfold assemble_graph, dict_items. apply undirected_fold_add_edge. intros u v.
  by rewrite !get_edge_data_fold_add_node, !get_edge_data_Graph_new.
Qed.

(** Where an edge of the folded graph comes from. *)
Lemma get_edge_data_fold_origin em G u v w :
  nx.get_edge_data (foldl (λ G '(e, w), nx.add_edge e.1 e.2 w G) G em) u v = Some w →
  nx.get_edge_data G u v = Some w ∨ ((u, v), w) ∈ em ∨ ((v, u), w) ∈ em.
Proof.
  revert G. induction em as [|[[a b] w'] em IH]; intros G Hget; simpl in *; [by left|].
  apply IH in Hget as [Hget|[Hin|Hin]].
  - rewrite get_edge_data_add_edge in Hget. case_decide as Huv; [|by left].
    injection Hget as ->. right.
    destruct Huv as [[= -> ->]|[= -> ->]]; [left | right]; left.
  - right; left. by right.
  - right; right. by right.
Qed.

Lemma nodes_fold_add_edge_any em G :
  nx.nodes (foldl (λ G '(e, w), nx.add_edge e.1 e.2 w G) G em)
  = edge_map_endpoints em ∪ nx.nodes G.
Proof.
  unfold edge_map_endpoints, dict_keys. revert G.
  induction em as [|[[a b] w] em IH]; intros G; simpl; [set_solver|].
  rewrite IH, nodes_add_edge. set_solver.
Qed.

Lemma unordered_key_eq u v a b :
  unordered_key (u, v) = unordered_key (a, b) ↔ (u, v) = (a, b) ∨ (u, v) = (b, a).
Proof.
  unfold unordered_key. simpl. split.
  - intros [= Hmin Hmax].
    destruct (Nat.min_spec u v) as [[? Hm1]|[? Hm1]], (Nat.max_spec u v) as [[? Hx1]|[? Hx1]],
      (Nat.min_spec a b) as [[? Hm2]|[? Hm2]], (Nat.max_spec a b) as [[? Hx2]|[? Hx2]].
    all: rewrite Hm1, Hm2 in Hmin; rewrite Hx1, Hx2 in Hmax; subst.
    all: first [by left | by right | lia | (assert (a = b) as -> by lia; by left)].
  - intros [[= -> ->]|[= -> ->]]; [done|].
    by rewrite (Nat.min_comm b a), (Nat.max_comm b a).
Qed.

Lemma degree_of_insert_present n v w (nbrs : gmap nat weight) :
  n ≠ v → is_Some (nbrs !! v) →
  nx.degree_of n (<[v := w]> nbrs) = nx.degree_of n nbrs.
Proof.
  intros Hne [w' Hv]. unfold nx.degree_of.
  rewrite map_size_insert_Some by eauto. by rewrite lookup_insert_ne by done.
Qed.

Lemma degree_of_insert_self n w (nbrs : gmap nat weight) :
  nx.degree_of n (<[n := w]> nbrs)
  = (if decide (is_Some (nbrs !! n)) then 0 else 2) + nx.degree_of n nbrs.
Proof.
  unfold nx.degree_of. rewrite lookup_insert_eq.
  destruct (decide (is_Some (Some w))) as [_|Hw]; [|destruct Hw; eauto].
  destruct (nbrs !! n) as [w'|] eqn:Hn.
  - rewrite map_size_insert_Some by (rewrite Hn; eauto).
    destruct (decide (is_Some (Some w'))) as [_|Hw]; [lia | destruct Hw; eauto].
  - rewrite map_size_insert_None by done.
    destruct (decide (is_Some (@None weight))) as [[? Hw]|_]; [done | lia].
Qed.

(** Adding an edge raises the degree sum by two when the pair was not yet
    joined, and leaves it when the edge only gets a new weight; a self-edge
    counts twice at its node. *)
Lemma degree_sum_add_edge_any a b w G :
  (is_Some (nx.get_edge_data G a b) ↔ is_Some (nx.get_edge_data G b a)) →
  nx.degree_sum (nx.add_edge a b w G)
  = (if decide (is_Some (nx.get_edge_data G a b)) then 0 else 2) + nx.degree_sum G.
Proof.
  rewrite <- (get_edge_data_add_node a G a b), <- (get_edge_data_add_node a G b a).
  rewrite <- (get_edge_data_add_node b (nx.add_node a G) a b).
  rewrite <- (get_edge_data_add_node b (nx.add_node a G) b a).
  rewrite <- (degree_sum_add_node a G), <- (degree_sum_add_node b (nx.add_node a G)).
  assert (is_Some (nx._adj (nx.add_node b (nx.add_node a G)) !! a)) as [na Hna].
  { apply (elem_of_dom (D := gset nat)). fold (nx.nodes (nx.add_node b (nx.add_node a G))).
    rewrite !nodes_add_node. set_solver. }
  assert (is_Some (nx._adj (nx.add_node b (nx.add_node a G)) !! b)) as [nb Hnb].
  { apply (elem_of_dom (D := gset nat)). fold (nx.nodes (nx.add_node b (nx.add_node a G))).
    rewrite !nodes_add_node. set_solver. }
  unfold nx.add_edge. cbn zeta.
  generalize dependent (nx.add_node b (nx.add_node a G)). intros [adj] Hna Hnb.
  unfold nx.get_edge_data. cbn [nx._adj] in *. rewrite Hna, Hnb. cbn [mbind option_bind].
  intros Hsym.
  pose proof (degree_sum_alter adj (λ nbrs, <[b := w]> nbrs) a na Hna) as H1.
  destruct (decide (a = b)) as [<-|Hne].
  - assert (nb = na) as -> by congruence.
    pose proof (degree_sum_alter (alter (λ nbrs, <[a := w]> nbrs) a adj)
                  (λ nbrs, <[a := w]> nbrs) a (<[a := w]> na)) as H2.
    rewrite lookup_alter_eq, Hna in H2. specialize (H2 eq_refl).
    rewrite insert_insert_eq in H2. rewrite degree_of_insert_self in H1.
    destruct (decide (is_Some (na !! a))); lia.
  - pose proof (degree_sum_alter (alter (λ nbrs, <[b := w]> nbrs) a adj)
                  (λ nbrs, <[a := w]> nbrs) b nb) as H2.
    rewrite lookup_alter_ne in H2 by done. specialize (H2 Hnb).
    destruct (decide (is_Some (na !! b))) as [Hab|Hab].
    + rewrite degree_of_insert_present in H1 by done.
      rewrite degree_of_insert_present in H2 by (by apply Hsym || done). lia.
    + assert (nb !! a = None) as Hba.
      { apply eq_None_not_Some. by rewrite <- Hsym. }
      apply eq_None_not_Some in Hab.
      rewrite degree_of_insert_other in H1 by done.
      rewrite degree_of_insert_other in H2 by done. lia.
Qed.

Lemma edge_map_pairs_cons a b w em :
  edge_map_pairs (((a, b), w) :: em) = {[unordered_key (a, b)]} ∪ edge_map_pairs em.
Proof. done. Qed.

(** The edges of the folded graph are the pairs named so far, and the
    degree sum is twice their number. *)
Lemma fold_add_edge_pairs em G (P : gset (nat * nat)) :
  undirected G →
  (∀ u v, is_Some (nx.get_edge_data G u v) ↔ unordered_key (u, v) ∈ P) →
  nx.degree_sum G = 2 * size P →
  (∀ u v, is_Some (nx.get_edge_data
                     (foldl (λ G '(e, w), nx.add_edge e.1 e.2 w G) G em) u v)
          ↔ unordered_key (u, v) ∈ edge_map_pairs em ∪ P)
  ∧ nx.degree_sum (foldl (λ G '(e, w), nx.add_edge e.1 e.2 w G) G em)
    = 2 * size (edge_map_pairs em ∪ P).
Proof.
  revert G P. induction em as [|[[a b] w] em IH]; intros G P Hsym Hchar Hsum.
  { simpl. unfold edge_map_pairs. simpl. rewrite (left_id_L ∅ (∪)). done. }
  rewrite edge_map_pairs_cons. cbn [foldl fst snd].
  assert (edge_map_pairs em ∪ ({[unordered_key (a, b)]} ∪ P)
          = {[unordered_key (a, b)]} ∪ edge_map_pairs em ∪ P) as <- by set_solver.
  apply IH.
  - by apply undirected_add_edge.
  - intros u v. rewrite get_edge_data_add_edge, elem_of_union, elem_of_singleton.
    rewrite unordered_key_eq, <- Hchar. case_decide as Huv; [|tauto].
    split; [by left | eauto].
  - rewrite degree_sum_add_edge_any by (by rewrite (Hsym a b)).
    case_decide as Hab.
    + apply Hchar in Hab.
      assert ({[unordered_key (a, b)]} ∪ P = P) as -> by set_solver. done.
    + rewrite Hchar in Hab. rewrite size_union by set_solver.
      rewrite size_singleton. lia.
Qed.

Lemma number_of_edges_pairs L em :
  nx.number_of_edges (assemble_graph L em) = size (edge_map_pairs em).
Proof.
  unfold nx.number_of_edges, assemble_graph, dict_items.
  destruct (fold_add_edge_pairs em
              (foldl (λ G n, nx.add_node n G) nx.Graph_new (range L)) ∅) as [_ Hsum].
  - intros u v. by rewrite !get_edge_data_fold_add_node, !get_edge_data_Graph_new.
  - intros u v. rewrite get_edge_data_fold_add_node, get_edge_data_Graph_new.
    split; [by intros [??] | set_solver].
  - rewrite degree_sum_fold_add_node, size_empty. unfold nx.degree_sum, nx.Graph_new.
    cbn [nx._adj]. by rewrite map_fold_empty.
  - rewrite Hsum, (right_id_L ∅ (∪)), Nat.mul_comm. apply Nat.div_mul. lia.
Qed.

Lemma size_list_to_set_le (ks : list (nat * nat)) :
  size (list_to_set ks : gset (nat * nat)) ≤ length ks.
Proof.
  induction ks as [|k ks IH].
  - by rewrite list_to_set_nil, size_empty.
  - rewrite list_to_set_cons, size_union_alt, size_singleton. simpl.
    pose proof (subseteq_size (list_to_set ks ∖ {[k]}) (list_to_set ks : gset (nat * nat))) as Hle.
    specialize (Hle ltac:(set_solver)). lia.
Qed.

(** A dict that names each unordered pair once has as many pairs as items,
    self-edges included. *)
Lemma size_edge_map_pairs em :
  dict_wf em → keys_unordered em → size (edge_map_pairs em) = dict_len em.
Proof.
  unfold dict_len. induction em as [|[[a b] w] em IH]; intros Hwf Hun.
  { unfold edge_map_pairs, dict_keys. by rewrite fmap_nil, fmap_nil, list_to_set_nil, size_empty. }
  destruct (keys_unordered_tail _ _ _ _ Hwf Hun) as (Hwf' & Hun' & Hfresh & Hrev).
  rewrite edge_map_pairs_cons, size_union, size_singleton; [simpl; by rewrite IH|].
  apply disjoint_singleton_l. unfold edge_map_pairs. rewrite elem_of_list_to_set.
  intros ([a' b'] & Heq & Hin)%list_elem_of_fmap.
  apply unordered_key_eq in Heq as [[= -> ->]|[= -> ->]]; done.
Qed.

(** Two nodes of the assembled graph are joined exactly when a key names
    them, in either order. *)
Lemma has_edge_assemble_graph L em u v :
  is_Some (nx.get_edge_data (assemble_graph L em) u v)
  ↔ (u, v) ∈ dict_keys em ∨ (v, u) ∈ dict_keys em.
Proof.
  unfold assemble_graph, dict_items.
  destruct (fold_add_edge_pairs em
              (foldl (λ G n, nx.add_node n G) nx.Graph_new (range L)) ∅) as [Hchar _].
  - intros a b. by rewrite !get_edge_data_fold_add_node, !get_edge_data_Graph_new.
  - intros a b. rewrite get_edge_data_fold_add_node, get_edge_data_Graph_new.
    split; [by intros [??] | set_solver].
  - rewrite degree_sum_fold_add_node, size_empty. unfold nx.degree_sum, nx.Graph_new.
    cbn [nx._adj]. by rewrite map_fold_empty.
  - rewrite Hchar, (right_id_L ∅ (∪)). unfold edge_map_pairs.
    rewrite elem_of_list_to_set, list_elem_of_fmap. split.
    + intros ([a b] & Heq & Hin). apply unordered_key_eq in Heq as [[= -> ->]|[= -> ->]]; auto.
    + intros [Hin|Hin]; eexists; (split; [|exact Hin]); apply unordered_key_eq; auto.
Qed.

Lemma covers_or_missing (d : pydict nat nat) (L : nat) :
  covers d L ∨ ∃ i, i < L ∧ dict_get d i = None.
Proof.
  induction L as [|L [IH|(i & Hi & Hnone)]].
  - left. intros i Hi. lia.
  - destruct (dict_get d L) as [c|] eqn:HL.
    + left. intros i Hi. destruct (decide (i = L)) as [->|]; [by rewrite HL|].
      apply IH. lia.
    + right. exists L. split; [lia | done].
  - right. exists i. split; [lia | done].
Qed.
End loose_edge_maps.

(** Four items, of which two name the edge 0-1, one is a self-edge and one
    reaches the index 7: three edges on the nodes 0, 1, 2 and 7. *)
Example scenario_loose_edge_map :
  ∃ G, graph_ (fit_predict Sample2.oracle3 (@None sparse_matrix) Sample2.y3
                 (__init__ Sample2.loose_builder "louvain")).2 = Some G
       ∧ nx.number_of_edges G = 3
       ∧ nx.number_of_nodes G = 4
       ∧ (fit_predict Sample2.oracle3 (@None sparse_matrix) Sample2.y3
            (__init__ Sample2.loose_builder "louvain")).1 = inr [[0; 1]; [2]; []].
Proof. eexists. repeat split; reflexivity. Qed.

(** ** Further theorems *)

(** X1. Whatever the method, the detectors, [X] and the attributes left by
    earlier calls, and whether the call returns or raises: after
    [fit_predict] the attributes [graph_] and [weights_] are set and are
    determined by the graph builder and [y] alone, and [graph_builder] and
    [method] are the ones [self] had. *)
Theorem X1_attributes_set_whatever_happens
    (lib1 lib2 : detectors) {T1 T2} (X1 : T1) (X2 : T2) y gb m1 m2 W1 W2 G1 G2 :
  graph_builder (fit_predict lib1 X1 y (mkClusterer gb m1 W1 G1)).2 = gb
  ∧ method (fit_predict lib1 X1 y (mkClusterer gb m1 W1 G1)).2 = m1
  ∧ is_Some (graph_ (fit_predict lib1 X1 y (mkClusterer gb m1 W1 G1)).2)
  ∧ is_Some (weights_ (fit_predict lib1 X1 y (mkClusterer gb m1 W1 G1)).2)
  ∧ graph_ (fit_predict lib1 X1 y (mkClusterer gb m1 W1 G1)).2
    = graph_ (fit_predict lib2 X2 y (mkClusterer gb m2 W2 G2)).2
  ∧ weights_ (fit_predict lib1 X1 y (mkClusterer gb m1 W1 G1)).2
    = weights_ (fit_predict lib2 X2 y (mkClusterer gb m2 W2 G2)).2.
Proof.
  rewrite !fit_predict_state. unfold fitted. simpl. repeat split; eauto.
Qed.

(** X2. A call is not influenced by an earlier call on the same object:
    the graph is built anew, so fitting again gives the result and the
    attributes of a first fit. *)
Theorem X2_refit_starts_afresh
    (lib lib' : detectors) {T T'} (X : T) (X' : T') y y' self :
  fit_predict lib X y (fit_predict lib' X' y' self).2 = fit_predict lib X y self.
Proof.
  rewrite fit_predict_state. rewrite (fit_predict_fitted lib X y (fitted self y')).
  by rewrite (fit_predict_fitted lib X y self).
Qed.

(** X3. When several items of the edge map name the same unordered pair,
    the edge carries the weight of the last of them: nothing is rejected, a
    later item overwrites the weight of an earlier one. *)
Theorem X3_last_item_sets_the_weight
    (lib : detectors) {T} (X : T) y self em1 a b w em2 :
  transform (graph_builder self) y = (em1 ++ ((a, b), w) :: em2)%list →
  (a, b) ∉ dict_keys em2 → (b, a) ∉ dict_keys em2 →
  ∃ G, graph_ (fit_predict lib X y self).2 = Some G
       ∧ nx.get_edge_data G a b = Some w ∧ nx.get_edge_data G b a = Some w.
Proof.
  intros Hem Hab Hba. rewrite fit_predict_state. eexists. split; [reflexivity|].
  rewrite Hem. unfold assemble_graph, dict_items. rewrite foldl_app. cbn [foldl fst snd].
  rewrite !get_edge_data_fold_untouched by done.
  rewrite !get_edge_data_add_edge, !decide_True; auto.
Qed.

Lemma X3_last_item_sets_the_weight_witness :
  ∃ G, graph_ (fit_predict Sample.oracle (@None sparse_matrix) Sample2.y3
                 (__init__ Sample2.loose_builder "louvain")).2 = Some G
       ∧ nx.get_edge_data G 1 0 = Some (Some (5 # 1)%Q)
       ∧ nx.get_edge_data G 0 1 = Some (Some (5 # 1)%Q).
Proof.
  apply (X3_last_item_sets_the_weight Sample.oracle (@None sparse_matrix) Sample2.y3
           (__init__ Sample2.loose_builder "louvain")
           [((0, 1), Some (1 # 1)%Q); ((2, 2), Some (3 # 1)%Q)] 1 0 (Some (5 # 1)%Q)
           [((1, 7), None)]).
  - reflexivity.
  - unfold dict_keys. simpl. apply (bool_decide_unpack _). reflexivity.
  - unfold dict_keys. simpl. apply (bool_decide_unpack _). reflexivity.
Defined.

(** X4. The assembled graph is undirected and has no edge of its own
    making: two nodes are joined exactly when a key of the edge map names
    them in one order or the other, and the weight on an edge is the value
    of such a key. *)
Theorem X4_edges_come_from_the_edge_map (lib : detectors) {T} (X : T) y self :
  ∃ G, graph_ (fit_predict lib X y self).2 = Some G
       ∧ undirected G
       ∧ (∀ u v, is_Some (nx.get_edge_data G u v)
                 ↔ (u, v) ∈ dict_keys (transform (graph_builder self) y)
                   ∨ (v, u) ∈ dict_keys (transform (graph_builder self) y))
       ∧ (∀ u v w, nx.get_edge_data G u v = Some w →
            ((u, v), w) ∈ transform (graph_builder self) y
            ∨ ((v, u), w) ∈ transform (graph_builder self) y).
Proof.
  rewrite fit_predict_state. eexists. split; [reflexivity|].
  split; [apply undirected_assemble_graph|]. split; [apply has_edge_assemble_graph|].
  intros u v w Hget. unfold assemble_graph, dict_items in Hget.
  apply get_edge_data_fold_origin in Hget as [Hget|Hin]; [|done].
  by rewrite get_edge_data_fold_add_node, get_edge_data_Graph_new in Hget.
Qed.

(** X5. No key of the edge map is rejected for its endpoints: the nodes of
    the assembled graph are the label indices [0 .. L-1] together with every
    index that occurs in a key, so the graph has at least [L] nodes. *)
Theorem X5_nodes_are_labels_and_endpoints (lib : detectors) {T} (X : T) y self :
  ∃ G, graph_ (fit_predict lib X y self).2 = Some G
       ∧ nx.nodes G = list_to_set (range (shape y).2)
                      ∪ edge_map_endpoints (transform (graph_builder self) y)
       ∧ (shape y).2 ≤ nx.number_of_nodes G.
Proof.
  rewrite fit_predict_state. eexists. split; [reflexivity|].
  assert (nx.nodes (assemble_graph (shape y).2 (transform (graph_builder self) y))
          = list_to_set (range (shape y).2)
            ∪ edge_map_endpoints (transform (graph_builder self) y)) as Hnodes.
  { unfold assemble_graph, dict_items.
    rewrite nodes_fold_add_edge_any, nodes_fold_add_node.
    unfold nx.nodes at 1, nx.Graph_new. cbn [nx._adj]. rewrite dom_empty_L. set_solver. }
  split; [exact Hnodes|]. cbn [graph_ fitted].
  unfold nx.number_of_nodes. rewrite <- (size_dom (D := gset nat)).
  fold (nx.nodes (assemble_graph (shape y).2 (transform (graph_builder self) y))).
  rewrite Hnodes.
  transitivity (size (list_to_set (range (shape y).2) : gset nat)).
  - unfold range. rewrite size_list_to_set by apply NoDup_seq. by rewrite length_seq.
  - apply subseteq_size. set_solver.
Qed.

(** X6. The number of edges of the assembled graph is the number of
    distinct unordered pairs that the keys of the edge map name, a self-edge
    counting once; it never exceeds [len(edge_map)]. *)
Theorem X6_edges_are_the_distinct_pairs (lib : detectors) {T} (X : T) y self :
  ∃ G, graph_ (fit_predict lib X y self).2 = Some G
       ∧ nx.number_of_edges G = size (edge_map_pairs (transform (graph_builder self) y))
       ∧ nx.number_of_edges G ≤ dict_len (transform (graph_builder self) y).
Proof.
  rewrite fit_predict_state. eexists. split; [reflexivity|]. cbn [graph_ fitted].
  rewrite number_of_edges_pairs. split; [done|].
  unfold edge_map_pairs, dict_len, dict_keys.
  etransitivity; [apply size_list_to_set_le|]. by rewrite !length_fmap.
Qed.

(** X7. For an edge map that names each unordered pair once, the graph has
    [len(edge_map)] edges also when keys are self-edges or have endpoints
    that are no label index. *)
Theorem X7_edge_count_with_self_edges (lib : detectors) {T} (X : T) y self :
  dict_wf (transform (graph_builder self) y) →
  keys_unordered (transform (graph_builder self) y) →
  ∃ G, graph_ (fit_predict lib X y self).2 = Some G
       ∧ nx.number_of_edges G = dict_len (transform (graph_builder self) y).
Proof.
  intros Hwf Hun. rewrite fit_predict_state. eexists. split; [reflexivity|].
  cbn [graph_ fitted]. rewrite number_of_edges_pairs. by apply size_edge_map_pairs.
Qed.

Lemma X7_edge_count_with_self_edges_witness :
  ∃ G, graph_ (fit_predict Sample.oracle (@None sparse_matrix) Sample2.y3
                 (__init__ Sample2.self_builder "louvain")).2 = Some G
       ∧ nx.number_of_edges G = 2.
Proof.
  apply (X7_edge_count_with_self_edges Sample.oracle (@None sparse_matrix) Sample2.y3
           (__init__ Sample2.self_builder "louvain")).
  - unfold dict_wf. simpl. apply (bool_decide_unpack _). reflexivity.
  - unfold keys_unordered, dict_keys. simpl. intros a b Hk Hne. apply (bool_decide_unpack _).
    apply elem_of_cons in Hk as [[= -> ->]|Hk]; [done|].
    apply elem_of_cons in Hk as [[= -> ->]|Hk]; [reflexivity|].
    by apply elem_of_nil in Hk.
Defined.

Lemma to_membership_list_max_fails {S} (d : pydict nat nat) L e (s : S) :
  covers d L → py_max (dict_values d) = inl e →
  to_membership_list (PyDictObject d) L s = (inl e, s).
Proof.
  intros Hcov Hmax. unfold to_membership_list. unfold bind at 1.
  rewrite (comprehension_lift_ok _ (λ i, default 0 (dict_get d i))).
  - unfold bind at 1, lift at 1. simpl. unfold bind at 1, lift at 1. by rewrite Hmax.
  - intros i Hi%elem_of_seq. simpl. destruct (Hcov i) as [c ->]; [lia | done].
Qed.

(** X8. The outcomes of the modularity branch. An exception raised inside
    [best_partition] ends the call unchanged. When [best_partition] returns
    a dict, the call returns a membership list exactly when the dict is not
    empty and holds every label index below [L]; it raises [KeyError]
    exactly when some label index is missing, and [ValueError] exactly when
    the dict is empty and there is no label; it raises nothing else. *)
Theorem X8_modularity_branch_outcomes (lib : detectors) {T} (X : T) y self :
  method self = "louvain" →
  match best_partition lib
          (assemble_graph (shape y).2 (transform (graph_builder self) y)) with
  | inl e => (fit_predict lib X y self).1 = inl e
  | inr d =>
      ((∃ out, (fit_predict lib X y self).1 = inr out) ↔ covers d (shape y).2 ∧ d ≠ [])
      ∧ ((∃ j, (fit_predict lib X y self).1 = inl (KeyError j))
         ↔ ∃ i, i < (shape y).2 ∧ dict_get d i = None)
      ∧ ((fit_predict lib X y self).1 = inl ValueError ↔ d = [] ∧ (shape y).2 = 0)
      ∧ (fit_predict lib X y self).1 ≠ inl TypeError
      ∧ (fit_predict lib X y self).1 ≠ inl AttributeError
  end.
Proof.
  intros Hm. rewrite fit_predict_louvain by done.
  destruct (best_partition lib _) as [e|d]; [done|].
  destruct (covers_or_missing d (shape y).2) as [Hcov|(i & Hi & Hnone)].
  - assert (¬ ∃ i, i < (shape y).2 ∧ dict_get d i = None) as Hno.
    { intros (i & Hi & Hnone). destruct (Hcov i Hi) as [c Hc]. congruence. }
    destruct (py_max (dict_values d)) as [e|m] eqn:Hmax.
    + rewrite (to_membership_list_max_fails d _ e) by done.
      apply py_max_inl in Hmax as [Hnil ->]. destruct d as [|item d]; [|done].
      assert ((shape y).2 = 0) as HL.
      { destruct (shape y).2 as [|L]; [done|]. by destruct (Hcov 0 ltac:(lia)). }
      cbn [fst]. split; [|split; [|split; [|split]]]; try done.
      * split; [intros [out Hout]; done | intros [_ Hne]; done].
      * split; [intros [j Hj]; done | intros Hex; by destruct Hno].
    + destruct (to_membership_list_dict d (shape y).2 m (fitted self y) Hcov Hmax)
        as (v & _ & _ & ->). cbn [fst].
      assert (d ≠ []) as Hne by (intros ->; done).
      split; [|split; [|split; [|split]]]; try done.
      * split; [done | eauto].
      * split; [intros [j Hj]; done | intros Hex; by destruct Hno].
      * split; [done | intros [Hnil _]; done].
  - destruct (to_membership_list_missing d (shape y).2 i (fitted self y) Hi Hnone)
      as (j & Hj & Hjnone & ->). cbn [fst].
    assert (¬ covers d (shape y).2) as Hnc.
    { intros Hcov. destruct (Hcov i Hi) as [c Hc]. congruence. }
    split; [|split; [|split; [|split]]]; try done.
    + split; [intros [out Hout]; done | intros [Hcov _]; done].
    + split; eauto.
    + split; [done | intros [_ HL]; lia].
Qed.

Lemma X8_modularity_branch_outcomes_witness :
  (((∃ out, (fit_predict Sample2.oracle3 (@None sparse_matrix) Sample2.y3
               (__init__ Sample2.loose_builder "louvain")).1 = inr out)
    ↔ covers [(0, 0); (1, 0); (2, 1); (7, 2)] 3 ∧ [(0, 0); (1, 0); (2, 1); (7, 2)] ≠ [])
   ∧ ((∃ j, (fit_predict Sample2.oracle3 (@None sparse_matrix) Sample2.y3
               (__init__ Sample2.loose_builder "louvain")).1 = inl (KeyError j))
      ↔ ∃ i, i < 3 ∧ dict_get [(0, 0); (1, 0); (2, 1); (7, 2)] i = None)
   ∧ ((fit_predict Sample2.oracle3 (@None sparse_matrix) Sample2.y3
         (__init__ Sample2.loose_builder "louvain")).1 = inl ValueError
      ↔ [(0, 0); (1, 0); (2, 1); (7, 2)] = [] ∧ 3 = 0)
   ∧ (fit_predict Sample2.oracle3 (@None sparse_matrix) Sample2.y3
        (__init__ Sample2.loose_builder "louvain")).1 ≠ inl TypeError
   ∧ (fit_predict Sample2.oracle3 (@None sparse_matrix) Sample2.y3
        (__init__ Sample2.loose_builder "louvain")).1 ≠ inl AttributeError)
  ∧ (fit_predict Sample2.oracle_raising (@None sparse_matrix) Sample.y4
       (__init__ Sample.none_builder "louvain")).1 = inl TypeError.
Proof.
  split.
  - exact (X8_modularity_branch_outcomes Sample2.oracle3 (@None sparse_matrix) Sample2.y3
             (__init__ Sample2.loose_builder "louvain") eq_refl).
  - exact (X8_modularity_branch_outcomes Sample2.oracle_raising (@None sparse_matrix)
             Sample.y4 (__init__ Sample.none_builder "louvain") eq_refl).
Defined.

(** X9. With any method other than ["louvain"] the call never returns a
    membership list. With networkx as released the lookup of
    [asyn_lpa_communities] in the module raises [AttributeError], whatever
    [y] is; where the name resolves, the iterator of the detector is
    subscripted and raises [TypeError] when there is a label, and has no
    [values] ([AttributeError]) when there is none. *)
Theorem X9_other_methods_never_return (lib : detectors) {T} (X : T) y self :
  method self ≠ "louvain" →
  (fit_predict lib X y self).1
  = inl (match asyn_lpa_communities lib with
         | None => AttributeError
         | Some _ => if decide ((shape y).2 = 0) then AttributeError else TypeError
         end).
Proof. intros Hm. by rewrite fit_predict_other. Qed.

Lemma X9_other_methods_never_return_witness :
  (fit_predict Sample.networkx_released (@None sparse_matrix) Sample2.y3
     (__init__ Sample2.self_builder "label_propagation")).1 = inl AttributeError.
Proof.
  apply (X9_other_methods_never_return Sample.networkx_released (@None sparse_matrix)
           Sample2.y3 (__init__ Sample2.self_builder "label_propagation")).
  intros Heq. discriminate Heq.
Defined.

(** X10. For a weighted builder whose edge map names each unordered pair
    once, [weights_] and [graph_] agree: the list under ['weight'] has one
    entry per edge of the graph, and its entry at position [i] is the weight
    on the edge that the key at position [i] names. *)
Theorem X10_weights_follow_the_edges (lib : detectors) {T} (X : T) y self :
  is_weighted (graph_builder self) = true →
  dict_wf (transform (graph_builder self) y) →
  keys_unordered (transform (graph_builder self) y) →
  ∃ G ws, graph_ (fit_predict lib X y self).2 = Some G
          ∧ weights_ (fit_predict lib X y self).2 = Some [("weight", Some ws)]
          ∧ length ws = nx.number_of_edges G
          ∧ ∀ i a b, dict_keys (transform (graph_builder self) y) !! i = Some (a, b) →
              nx.get_edge_data G a b = ws !! i.
Proof.
  intros Hw Hwf Hun. rewrite fit_predict_state. unfold fitted. cbn [graph_ weights_].
  rewrite Hw. do 2 eexists. split; [reflexivity|]. split; [reflexivity|]. split.
  - rewrite number_of_edges_pairs, size_edge_map_pairs by done.
    unfold dict_values, dict_len. by rewrite length_fmap.
  - intros i a b Hi. unfold dict_keys, dict_values in *.
    apply list_lookup_fmap_Some in Hi as ([[a' b'] w] & Heq & Hitem).
    simpl in Heq. injection Heq as -> ->.
    rewrite list_lookup_fmap, Hitem. simpl.
    apply list_elem_of_lookup_2 in Hitem.
    destruct (get_edge_data_fold_key (transform (graph_builder self) y)
                (foldl (λ G n, nx.add_node n G) nx.Graph_new (range (shape y).2))
                a' b' w Hwf Hun Hitem) as [Hab _].
    exact Hab.
Qed.

Lemma X10_weights_follow_the_edges_witness :
  ∃ G ws, graph_ (fit_predict Sample.oracle (@None sparse_matrix) Sample2.y3
                    (__init__ Sample2.self_builder "louvain")).2 = Some G
          ∧ weights_ (fit_predict Sample.oracle (@None sparse_matrix) Sample2.y3
                        (__init__ Sample2.self_builder "louvain")).2
            = Some [("weight", Some ws)]
          ∧ length ws = nx.number_of_edges G
          ∧ ∀ i a b, dict_keys Sample2.edges_self !! i = Some (a, b) →
              nx.get_edge_data G a b = ws !! i.
Proof.
  apply (X10_weights_follow_the_edges Sample.oracle (@None sparse_matrix) Sample2.y3
           (__init__ Sample2.self_builder "louvain")).
  - reflexivity.
  - unfold dict_wf. simpl. apply (bool_decide_unpack _). reflexivity.
  - unfold keys_unordered, dict_keys. simpl. intros a b Hk Hne. apply (bool_decide_unpack _).
    apply elem_of_cons in Hk as [[= -> ->]|Hk]; [done|].
    apply elem_of_cons in Hk as [[= -> ->]|Hk]; [reflexivity|].
    by apply elem_of_nil in Hk.
Defined.
